(** * Automated Insight Engine: report pipeline and HTTP handlers

    A shallow embedding of [scripts/generate_report.py] ([run_report]) and of
    the handlers of [scripts/api_server.py] ([upload], [ingest], [analyze],
    [generate_report]), with the properties of the specification stated over
    it.

    Modelling conventions.
    - Text is [string]; characters are bytes and the character classes are the
      ASCII ones ([\d] is [0-9], whitespace is what [str.isspace] accepts below
      128, [str.lower] maps [A-Z] to [a-z]).
    - A table cell is missing, a text or an integer-valued number.  Numbers are
      exact ([Z], means in [Q]): float64 rounding and overflow are not
      represented, nor are columns of non-integral floats.
    - The filesystem is a finite map from paths to the bytes of regular files;
      directories are not represented.
    - Calls into pandas' CSV reader and numeric parser, matplotlib, fpdf and
      python-pptx are fields of the class [Libraries]; the text-generation
      client is the record [narrator]. *)

From Stdlib Require Import ZArith QArith Ascii String DecimalString List Sorting.Sorted Sorting.Permutation.
From Stdlib Require DecimalPos.
From stdpp Require Import base option list sorting gmap strings.

Open Scope Z_scope.
Open Scope nat_scope.

(** ** Text primitives *)

Module Text.

(** [str.isdigit] on one ASCII character, the class [\d]. *)
Definition is_digit (c : ascii) : bool :=
  let n := nat_of_ascii c in (48 <=? n) && (n <=? 57).

(** [str.isspace] on one ASCII character: tab, LF, VT, FF, CR, the four
    separators 28-31 and the space. *)
Definition is_space (c : ascii) : bool :=
  let n := nat_of_ascii c in
  ((9 <=? n) && (n <=? 13)) || ((28 <=? n) && (n <=? 31)) || (n =? 32).

Fixpoint lstrip (s : string) : string :=
  match s with
  | String c rest => if is_space c then lstrip rest else s
  | EmptyString => EmptyString
  end.

Fixpoint rstrip (s : string) : string :=
  match s with
  | String c rest =>
      match rstrip rest with
      | EmptyString => if is_space c then EmptyString else String c EmptyString
      | r => String c r
      end
  | EmptyString => EmptyString
  end.

(** [str.strip()] *)
Definition strip (s : string) : string := rstrip (lstrip s).

Definition lower_char (c : ascii) : ascii :=
  let n := nat_of_ascii c in
  if (65 <=? n) && (n <=? 90) then ascii_of_nat (n + 32) else c.

(** [str.lower()] *)
Fixpoint lower (s : string) : string :=
  match s with
  | String c rest => String (lower_char c) (lower rest)
  | EmptyString => EmptyString
  end.

(** [s.split(", ")]: the pieces between the non-overlapping occurrences of
    the two-character separator, scanned left to right; [cur] holds the
    current piece reversed.  The empty text splits into one empty piece. *)
Fixpoint split_comma_space (s : string) (cur : list ascii) : list string :=
  match s with
  | String "," (String " " rest) =>
      string_of_list_ascii (rev cur) :: split_comma_space rest []
  | String c rest => split_comma_space rest (c :: cur)
  | EmptyString => [string_of_list_ascii (rev cur)]
  end.

(** The maximal run of digits at the head of [s]. *)
Fixpoint take_digits (s : string) : string :=
  match s with
  | String c rest => if is_digit c then String c (take_digits rest) else EmptyString
  | EmptyString => EmptyString
  end.

(** [re.search(r"(\d+)", s)]: group 1 of the leftmost match, which is greedy;
    [None] when [s] holds no digit. *)
Fixpoint search_digits (s : string) : option string :=
  match s with
  | String c rest => if is_digit c then Some (take_digits s) else search_digits rest
  | EmptyString => None
  end.

Definition digit_value (c : ascii) : Z := Z.of_nat (nat_of_ascii c - 48).

(** The number a digit string denotes, as [float(...)] reads it (exactly). *)
Fixpoint digits_value_from (acc : Z) (s : string) : Z :=
  match s with
  | String c rest => digits_value_from (10 * acc + digit_value c)%Z rest
  | EmptyString => acc
  end.

Definition digits_value (s : string) : Z := digits_value_from 0%Z s.

(** [str(n)] for a Python int. *)
Definition str_of_Z (z : Z) : string := NilZero.string_of_int (Z.to_int z).

(** [str.startswith] / [str.endswith] *)
Fixpoint startswith (p s : string) : bool :=
  match p, s with
  | EmptyString, _ => true
  | String a p', String b s' => Ascii.eqb a b && startswith p' s'
  | String _ _, EmptyString => false
  end.

Definition endswith (p s : string) : bool :=
  startswith (string_of_list_ascii (rev (list_ascii_of_string p)))
             (string_of_list_ascii (rev (list_ascii_of_string s))).

(** [str.rfind(c)] for a one-character needle: the index of the last
    occurrence, [None] for Python's -1. *)
Fixpoint rfind_char (c : ascii) (s : string) : option nat :=
  match s with
  | String a rest =>
      match rfind_char c rest with
      | Some i => Some (S i)
      | None => if Ascii.eqb a c then Some 0 else None
      end
  | EmptyString => None
  end.

(** [s[i:]] and [s[:i]] *)
Fixpoint drop_str (n : nat) (s : string) : string :=
  match n, s with
  | S n', String _ rest => drop_str n' rest
  | _, _ => s
  end.

Fixpoint take_str (n : nat) (s : string) : string :=
  match n, s with
  | S n', String c rest => String c (take_str n' rest)
  | _, _ => EmptyString
  end.

(** The [while] loop of [genericpath._splitext]: is there a character other
    than the dot among the first [n] characters of [s]? *)
Fixpoint has_non_dot (n : nat) (s : string) : bool :=
  match n, s with
  | S n', String c rest => if Ascii.eqb c "." then has_non_dot n' rest else true
  | _, _ => false
  end.

(** [os.path.splitext] (posixpath): the extension starts at the last dot of
    the last path component, leading dots of that component apart. *)
Definition splitext (p : string) : string * string :=
  let filenameIndex := match rfind_char "/" p with Some i => S i | None => 0 end in
  match rfind_char "." p with
  | Some dotIndex =>
      if (filenameIndex <=? dotIndex)
         && has_non_dot (dotIndex - filenameIndex) (drop_str filenameIndex p)
      then (take_str dotIndex p, drop_str dotIndex p)
      else (p, EmptyString)
  | None => (p, EmptyString)
  end.

(** [os.path.join(a, b)] (posixpath), two components. *)
Definition path_join (a b : string) : string :=
  if startswith "/" b then b
  else if (String.length a =? 0) || endswith "/" a then a +:+ b
  else a +:+ "/" +:+ b.

End Text.

(** ** Tables and the pandas operations the pipeline uses *)

Module Frame.

(** A cell of a table: missing ([NaN] / [None]), a text, or a number. *)
Inductive cell : Type :=
  | NA
  | Str (s : string)
  | Num (z : Z).

#[export] Instance cell_eq_dec : EqDecision cell.
Proof. solve_decision. Defined.

(** [pd.isna] *)
Definition isna (c : cell) : bool :=
  match c with NA => true | _ => false end.

(** A table: its columns in order, each a name and the cells of the rows.
    Selecting a name takes the first column that carries it. *)
Definition DataFrame : Type := list (string * list cell).

(** [df[name]], [None] when [name not in df.columns]. *)
Fixpoint get_column (name : string) (df : DataFrame) : option (list cell) :=
  match df with
  | (n, col) :: rest => if String.eqb n name then Some col else get_column name rest
  | [] => None
  end.

(** [len(df)] *)
Definition nrows (df : DataFrame) : nat :=
  match df with
  | (_, col) :: _ => length col
  | [] => 0
  end.

(** [df[name] = col]: overwrite the column in place, or append a new one. *)
Definition set_column (name : string) (col : list cell) (df : DataFrame) : DataFrame :=
  match get_column name df with
  | Some _ => map (fun nc => if String.eqb (fst nc) name then (fst nc, col) else nc) df
  | None => df ++ [(name, col)]
  end.

(** [df.columns = [f(c) for c in df.columns]] *)
Definition rename_columns (f : string -> string) (df : DataFrame) : DataFrame :=
  map (fun nc => (f (fst nc), snd nc)) df.

(** [Series.dropna()] *)
Definition dropna (col : list cell) : list cell :=
  filter (fun c => isna c = false) col.

(** One value of [Series.astype(str)]; a missing value becomes the text
    ["nan"]. *)
Definition astype_str (c : cell) : string :=
  match c with
  | NA => "nan"
  | Str s => s
  | Num z => Text.str_of_Z z
  end.

(** [Series.str.split(", ", expand=True).stack()]: the pieces of every row,
    row by row; the padding of the shorter rows is dropped by [stack]. *)
Definition split_stack (texts : list string) : list cell :=
  concat (map (fun s => map Str (Text.split_comma_space s [])) texts).

(** The number of occurrences of [v] in [l]. *)
Definition occurrences (v : cell) (l : list cell) : nat :=
  length (filter (fun c => c = v) l).

(** The distinct values of [l], each at its first occurrence. *)
Fixpoint unique (l : list cell) : list cell :=
  match l with
  | x :: rest => x :: filter (fun c => c <> x) (unique rest)
  | [] => []
  end.

(** Stable insertion sort for the order [leb]: among elements that [leb]
    relates both ways, the earlier one stays first. *)
Fixpoint insert_by {A} (leb : A -> A -> bool) (x : A) (l : list A) : list A :=
  match l with
  | y :: rest => if leb x y then x :: l else y :: insert_by leb x rest
  | [] => [x]
  end.

Definition sort_by {A} (leb : A -> A -> bool) (l : list A) : list A :=
  foldr (insert_by leb) [] l.

(** Descending count, the order of [value_counts] and [sort_values]. *)
Definition count_geb {K} (a b : K * nat) : bool := snd b <=? snd a.

(** The order of an index: numbers before texts, numbers by value, texts by
    code point. *)
Definition cell_leb (a b : cell) : bool :=
  match a, b with
  | Num x, Num y => (x <=? y)%Z
  | Num _, _ => true
  | Str _, Num _ => false
  | Str s, Str t => String.leb s t
  | Str _, NA => true
  | NA, NA => true
  | NA, _ => false
  end.

Definition key_leb {V} (a b : cell * V) : bool := cell_leb (fst a) (fst b).

(** [Series.value_counts()]: missing values are dropped (the default
    [dropna=True]), every distinct value is counted, and the result is
    sorted by descending count; equal counts keep the order of first
    appearance. *)
Definition value_counts (col : list cell) : list (cell * nat) :=
  let vals := dropna col in
  sort_by count_geb (map (fun v => (v, occurrences v vals)) (unique vals)).

(** [Series.head(n)] *)
Definition head {A} (n : nat) (l : list A) : list A := take n l.

(** [Series.sort_index()] *)
Definition sort_index {V} (s : list (cell * V)) : list (cell * V) :=
  sort_by key_leb s.

(** [Series.empty] *)
Definition empty {A} (s : list A) : bool :=
  match s with [] => true | _ => false end.

(** The numeric value of a cell, if it has one. *)
Definition num_of (c : cell) : option Z :=
  match c with Num z => Some z | _ => None end.

(** [Series.mean()] of a non-empty list of numbers. *)
Definition mean (zs : list Z) : Q :=
  Qred (inject_Z (foldr Z.add 0%Z zs) / inject_Z (Z.of_nat (length zs))).

(** [df.dropna(subset=[vname]).groupby(kname)[vname].mean()] on the two
    columns zipped by row: rows with a missing value are dropped, rows with a
    missing key form no group, groups come out in key order. *)
Definition groupby_mean (keys vals : list cell) : list (cell * Q) :=
  let rows := omap (fun kv => z ← num_of (snd kv); Some (fst kv, z)) (zip keys vals) in
  let rows := filter (fun kz => isna (fst kz) = false) rows in
  let groups := sort_by cell_leb (unique (map fst rows)) in
  map (fun k => (k, mean (map snd (filter (fun kz => fst kz = k) rows)))) groups.

End Frame.

(** ** The report pipeline ([scripts/generate_report.py]) *)

Module Report.
Import Frame.

(** The exceptions that cross a function boundary. *)
Inductive exn : Type :=
  | FileNotFoundError (msg : string)
  | SameFileError (msg : string)
  | LibraryError (msg : string)  (* raised inside pandas: ParserError, EmptyDataError, ... *)
  | HTTPException (status_code : nat) (detail : string).

Inductive result (A : Type) : Type :=
  | Ok (a : A)
  | Raise (e : exn).
Arguments Ok {A} a.
Arguments Raise {A} e.

(** [str(e)] *)
Definition str_exn (e : exn) : string :=
  match e with
  | FileNotFoundError msg | SameFileError msg | LibraryError msg => msg
  | HTTPException _ detail => detail
  end.

(** The filesystem: the bytes of every regular file, by path. *)
Abbreviation FS := (gmap string string).

(** [os.path.exists] / [Path.exists] *)
Definition path_exists (fs : FS) (p : string) : bool :=
  bool_decide (is_Some (fs !! p)).

(** What a chart shows, as handed to matplotlib. *)
Inductive plot_kind : Type := BarH | BarV | CountH | Line.

Record figure : Type := {
  kind : plot_kind;
  figsize : nat * nat;
  title : string;
  xlabel : string;
  ylabel : string;
  data : list (cell * Q)
}.

(** The calls an FPDF document and a Presentation receive. *)
Inductive pdf_item : Type :=
  | PdfHeading (text : string)
  | PdfParagraph (text : string)
  | PdfImage (path : string).

Inductive slide : Type :=
  | SummarySlide (heading : string) (body : option string)
  | PictureSlide (path : string).

(** The installation directory and the third-party calls whose results the
    pipeline only stores or tests: [pd.read_csv] on the bytes of a file
    (the table, or the message of the exception it raises),
    the parser behind [pd.to_numeric] on one text, [fig.savefig],
    [pdf.output] and [ppt.save] (which read the images they embed from the
    filesystem). *)
Class Libraries : Type := {
  PROJECT_DIR : string;
  read_csv : string -> DataFrame + string;
  parse_numeric : string -> option Z;
  savefig : figure -> string;
  pdf_output : FS -> list pdf_item -> string;
  ppt_save : FS -> list slide -> string
}.

(** The optional text-generation client: [AI_ENABLED] records whether the
    import succeeded; [chat_create] is the body of the [try] block on the
    three aggregates of the prompt, [None] when anything in it raises,
    else [response.choices[0].message.content]. *)
Record narrator : Type := {
  AI_ENABLED : bool;
  chat_create : list (cell * nat) -> list (cell * nat) -> list (cell * nat) -> option string
}.

(** The dictionary [run_report] returns. *)
Record report : Type := {
  csv_path : string;
  pdf_file : option string;
  ppt_file : option string;
  ai_summary : string;
  plots : gmap string string
}.

Section Pipeline.
Context `{L : Libraries}.

Definition DATA_DIR : string := Text.path_join PROJECT_DIR "data".
Definition REPORTS_DIR : string := Text.path_join PROJECT_DIR "reports".

Definition current_candidate : string := Text.path_join DATA_DIR "current_dataset.csv".
Definition default_netflix : string := Text.path_join DATA_DIR "netflix_titles.csv".

(** Step 1: decide which CSV to use. *)
Definition resolve_csv_path (csv_path : option string) (fs : FS) : string :=
  match csv_path with
  | None => if path_exists fs current_candidate then current_candidate else default_netflix
  | Some p => p
  end.

(** Step 3: cleaning and feature engineering. *)
Definition duration_num_of (c : cell) : cell :=
  match Text.search_digits (astype_str c) with
  | Some ds => Num (Text.digits_value ds)
  | None => NA
  end.

(** One value of [pd.to_numeric(..., errors="coerce")]. *)
Definition to_numeric (c : cell) : cell :=
  match c with
  | NA => NA
  | Num z => Num z
  | Str s => match parse_numeric s with Some z => Num z | None => NA end
  end.

Definition prepare (df : DataFrame) : DataFrame :=
  let df := rename_columns Text.strip df in
  let df :=
    match get_column "duration" df with
    | Some col => set_column "duration_num" (map duration_num_of col) df
    | None => set_column "duration_num" (replicate (nrows df) NA) df
    end in
  match get_column "release_year" df with
  | Some col => set_column "release_year" (map to_numeric col) df
  | None => df
  end.

(** The six aggregates on the prepared table; [None] when the guard on the
    columns fails. *)
Definition top_genres (df : DataFrame) : option (list (cell * nat)) :=
  col ← get_column "listed_in" df;
  Some (head 10 (value_counts (split_stack (map astype_str (dropna col))))).

Definition top_directors (df : DataFrame) : option (list (cell * nat)) :=
  col ← get_column "director" df;
  Some (head 10 (value_counts (dropna col))).

Definition rating_counts (df : DataFrame) : option (list (cell * nat)) :=
  col ← get_column "rating" df;
  Some (value_counts col).

Definition per_year (df : DataFrame) : option (list (cell * nat)) :=
  col ← get_column "release_year" df;
  Some (sort_index (value_counts col)).

Definition type_counts (df : DataFrame) : option (list (cell * nat)) :=
  col ← get_column "type" df;
  Some (value_counts col).

Definition avg_duration (df : DataFrame) : option (list (cell * Q)) :=
  vals ← get_column "duration_num" df;
  keys ← get_column "type" df;
  Some (groupby_mean keys vals).

(** [_save_plot] *)
Definition _save_plot (fig : figure) (filename : string) (fs : FS) : string * FS :=
  let out_path := Text.path_join REPORTS_DIR filename in
  (out_path, <[out_path := savefig fig]> fs).

Definition counts_data (s : list (cell * nat)) : list (cell * Q) :=
  map (fun kv => (fst kv, inject_Z (Z.of_nat (snd kv)))) s.

(** One chart block: nothing happens when the guard failed or the aggregate
    is empty; otherwise the figure is saved and recorded in [plot_files]. *)
Definition chart {V} (agg : option (list (cell * V))) (fig : list (cell * V) -> figure)
    (key filename : string) (st : gmap string string * FS) : gmap string string * FS :=
  match agg with
  | Some s =>
      if empty s then st
      else let '(out_path, fs) := _save_plot (fig s) filename (snd st) in
           (<[key := out_path]> (fst st), fs)
  | None => st
  end.

Definition fig_counts (k : plot_kind) (size : nat * nat) (t xl yl : string)
    (s : list (cell * nat)) : figure :=
  {| kind := k; figsize := size; title := t; xlabel := xl; ylabel := yl;
     data := counts_data s |}.

Definition fig_means (k : plot_kind) (size : nat * nat) (t xl yl : string)
    (s : list (cell * Q)) : figure :=
  {| kind := k; figsize := size; title := t; xlabel := xl; ylabel := yl; data := s |}.

Definition render_charts (df : DataFrame) (fs : FS) : gmap string string * FS :=
  let st := (∅, fs) in
  let st := chart (top_genres df) (fig_counts BarH (8, 6) "Top 10 Genres" "Count" "Genre")
              "top_genres" "top_genres.png" st in
  let st := chart (top_directors df) (fig_counts BarH (8, 6) "Top 10 Directors" "Count" "Director")
              "top_directors" "top_directors.png" st in
  let st := chart (rating_counts df) (fig_counts CountH (6, 5) "Rating Distribution" "Count" "Rating")
              "rating_distribution" "rating_distribution.png" st in
  let st := chart (per_year df) (fig_counts Line (8, 5) "Titles Released per Year" "Year" "Number of Titles")
              "titles_per_year" "titles_per_year.png" st in
  let st := chart (type_counts df) (fig_counts BarV (6, 5) "Title Type Distribution" "Type" "Count")
              "type_count" "type_count.png" st in
  chart (avg_duration df) (fig_means BarV (6, 5) "Average Duration by Type" "Type" "Average Duration")
    "avg_movie_duration" "avg_movie_duration.png" st.

(** The AI executive summary.  The three aggregates of the prompt are the
    empty series when their column is absent. *)
Definition summarize (ai : narrator) (df : DataFrame) : string :=
  if AI_ENABLED ai then
    match chat_create ai (default [] (top_genres df)) (default [] (top_directors df))
            (default [] (rating_counts df)) with
    | Some content => Text.strip content
    | None => ""
    end
  else "".

Definition chart_keys : list string :=
  ["top_genres"; "top_directors"; "rating_distribution"; "titles_per_year";
   "type_count"; "avg_movie_duration"].

(** The paths of the charts that exist, in the fixed order of the loops. *)
Definition chart_paths (plot_files : gmap string string) : list string :=
  omap (fun key => plot_files !! key) chart_keys.

(** Python's truth value of a string. *)
Definition truthy (s : string) : bool :=
  match s with EmptyString => false | _ => true end.

Definition pdf_doc (summary : string) (plot_files : gmap string string) : list pdf_item :=
  PdfHeading "Netflix Analysis Report"
  :: (if truthy summary then [PdfParagraph summary] else [])
  ++ map PdfImage (chart_paths plot_files).

Definition ppt_doc (summary : string) (plot_files : gmap string string) : list slide :=
  SummarySlide "Executive Summary" (if truthy summary then Some summary else None)
  :: map PictureSlide (chart_paths plot_files).

(** The [generate_files] branch. *)
Definition write_documents (summary : string) (plot_files : gmap string string) (fs : FS)
    : string * string * FS :=
  let pdf_path := Text.path_join REPORTS_DIR "netflix_report.pdf" in
  let fs := <[pdf_path := pdf_output fs (pdf_doc summary plot_files)]> fs in
  let ppt_path := Text.path_join REPORTS_DIR "netflix_report.pptx" in
  let fs := <[ppt_path := ppt_save fs (ppt_doc summary plot_files)]> fs in
  (pdf_path, ppt_path, fs).

(** Steps 3 and later, on the table that was loaded. *)
Definition report_on (ai : narrator) (path : string) (generate_files : bool)
    (df : DataFrame) (fs : FS) : report * FS :=
  let df := prepare df in
  let '(plot_files, fs) := render_charts df fs in
  let summary := summarize ai df in
  let '(pdf, ppt, fs) :=
    if generate_files then
      let '(pdf_path, ppt_path, fs) := write_documents summary plot_files fs in
      (Some pdf_path, Some ppt_path, fs)
    else (None, None, fs) in
  ({| csv_path := path; pdf_file := pdf; ppt_file := ppt;
      ai_summary := summary; plots := plot_files |}, fs).

Definition run_report (ai : narrator) (csv_path : option string) (generate_files : bool)
    (fs : FS) : result report * FS :=
  let path := resolve_csv_path csv_path fs in
  if negb (path_exists fs path) then
    (Raise (FileNotFoundError ("CSV file not found: " +:+ path)), fs)
  else
    match read_csv (default "" (fs !! path)) with
    | inr msg => (Raise (LibraryError msg), fs)
    | inl df => let '(r, fs) := report_on ai path generate_files df fs in (Ok r, fs)
    end.

End Pipeline.
End Report.

(** ** The HTTP handlers ([scripts/api_server.py]) *)

Module Api.
Import Frame Report.

(** An uploaded file: its client-side name and its bytes. *)
Record UploadFile : Type := {
  filename : string;
  file : string
}.

Record upload_response : Type := {
  uploaded_path : string;
  upload_current_dataset : string
}.

Record ingest_response : Type := {
  rows : nat;
  ingest_current_dataset : string
}.

Record analyze_response : Type := {
  analyze_csv_path : string;
  analyze_plots : gmap string string;
  analyze_ai_summary : string
}.

(** The [report_type] path parameter, [Literal["pdf", "pptx"]]. *)
Inductive report_type : Type := Pdf | Pptx.

(** A [FileResponse]: the file served, the download name, the media type,
    and the bytes that are streamed. *)
Record FileResponse : Type := {
  served_path : string;
  download_name : string;
  media_type : string;
  body : string
}.

Section Handlers.
Context `{L : Libraries}.

Definition UPLOADS_DIR : string := Text.path_join PROJECT_DIR "uploads".

Definition current_dataset_path : string := Text.path_join DATA_DIR "current_dataset.csv".

(** [shutil.copy(src, dst)] between two regular files. *)
Definition shutil_copy (src dst : string) (fs : FS) : result unit * FS :=
  if String.eqb src dst then
    (Raise (SameFileError (src +:+ " and " +:+ dst +:+ " are the same file")), fs)
  else
    match fs !! src with
    | Some bytes => (Ok tt, <[dst := bytes]> fs)
    | None => (Raise (FileNotFoundError src), fs)
    end.

(** POST /upload *)
Definition upload (f : UploadFile) (fs : FS) : result upload_response * FS :=
  let ext := Text.lower (snd (Text.splitext (filename f))) in
  if negb (String.eqb ext ".csv") then
    (Raise (HTTPException 400 "Only CSV files are supported for now."), fs)
  else
    let dest_path := Text.path_join UPLOADS_DIR (filename f) in
    let fs := <[dest_path := file f]> fs in
    match shutil_copy dest_path current_dataset_path fs with
    | (Raise e, fs) => (Raise e, fs)
    | (Ok _, fs) =>
        (Ok {| uploaded_path := dest_path;
               upload_current_dataset := current_dataset_path |}, fs)
    end.

(** POST /ingest *)
Definition ingest (path : string) (fs : FS) : result ingest_response * FS :=
  if negb (path_exists fs path) then
    (Raise (HTTPException 404 ("File not found: " +:+ path)), fs)
  else
    match shutil_copy path current_dataset_path fs with
    | (Raise e, fs) => (Raise e, fs)
    | (Ok _, fs) =>
        match read_csv (default "" (fs !! current_dataset_path)) with
        | inr msg => (Raise (LibraryError msg), fs)
        | inl df =>
            (Ok {| rows := nrows df;
                   ingest_current_dataset := current_dataset_path |}, fs)
        end
    end.

(** POST /analyze *)
Definition analyze (ai : narrator) (source : option string) (fs : FS)
    : result analyze_response * FS :=
  match run_report ai source false fs with
  | (Ok r, fs) =>
      (Ok {| analyze_csv_path := csv_path r;
             analyze_plots := plots r;
             analyze_ai_summary := ai_summary r |}, fs)
  | (Raise e, fs) => (Raise (HTTPException 500 (str_exn e)), fs)
  end.

(** POST /generate-report *)
Definition generate_report (ai : narrator) (source : option string) (fs : FS)
    : result report * FS :=
  match run_report ai source true fs with
  | (Ok r, fs) => (Ok r, fs)
  | (Raise e, fs) => (Raise (HTTPException 500 (str_exn e)), fs)
  end.

(** GET / *)
Definition root : string := "Automated Insight Engine API is running.".

(** [report_type.upper()] *)
Definition upper_report_type (t : report_type) : string :=
  match t with Pdf => "PDF" | Pptx => "PPTX" end.

(** GET /get-report/{report_type} *)
Definition get_report (t : report_type) (fs : FS) : result FileResponse :=
  let '(name, media) :=
    match t with
    | Pdf => ("netflix_report.pdf", "application/pdf")
    | Pptx => ("netflix_report.pptx",
               "application/vnd.openxmlformats-officedocument.presentationml.presentation")
    end in
  let path := Text.path_join REPORTS_DIR name in
  if negb (path_exists fs path) then
    Raise (HTTPException 404 (upper_report_type t +:+ " report not found. Generate it first."))
  else
    Ok {| served_path := path; download_name := name; media_type := media;
          body := default "" (fs !! path) |}.

End Handlers.
End Api.

(** ** Concrete tables and a concrete installation, to run the model on *)

Module Sample.
Import Frame Report Api.

(** The two-row table of the specification's scenario. *)
Definition two_rows : DataFrame :=
  [ ("type", [Str "Movie"; Str "TV Show"]);
    ("listed_in", [Str "Drama, Comedy"; Str "Drama"]);
    ("rating", [Str "PG-13"; Str "TV-MA"]);
    ("release_year", [Num 2020; Num 2021]);
    ("duration", [Str "90 min"; Str "2 Seasons"]) ].

(** A table whose second rating is missing and that has no director. *)
Definition gappy : DataFrame :=
  [ ("type", [Str "Movie"; Str "Movie"]);
    ("rating", [Str "PG-13"; NA]);
    ("duration", [Str "about 95 min"; NA]) ].

(** A stand-in installation: the reader knows two files by their bytes, the
    renderers write a tag. *)
Definition libs : Libraries := {|
  PROJECT_DIR := "/srv/app";
  read_csv := fun bytes =>
    if String.eqb bytes "two_rows" then inl two_rows
    else if String.eqb bytes "gappy" then inl gappy
    else inr "No columns to parse from file";
  parse_numeric := fun s =>
    match Text.search_digits s with
    | Some ds => if String.eqb ds s then Some (Text.digits_value ds) else None
    | None => None
    end;
  savefig := fun fig => "PNG " +:+ title fig;
  pdf_output := fun _ items => "PDF";
  ppt_save := fun _ slides => "PPTX"
|}.

(** No client installed, and a client whose call raises. *)
Definition no_client : narrator :=
  {| AI_ENABLED := false; chat_create := fun _ _ _ => None |}.


Definition working_client : narrator :=
  {| AI_ENABLED := true; chat_create := fun _ _ _ => Some " Drama dominates. " |}.

(** A filesystem holding an ingested dataset and the bundled default. *)
Definition disk : FS :=
  <[ "/srv/app/data/current_dataset.csv" := "gappy" ]>
  (<[ "/srv/app/data/netflix_titles.csv" := "two_rows" ]> ∅).

End Sample.

(** ** The vocabulary of the specification *)

Module Spec.
Import Text Frame Report.

(** The order a boolean comparison decides. *)
Definition le_of {A} (leb : A -> A -> bool) : A -> A -> Prop :=
  fun a b => leb a b = true.

(** Ordered by non-increasing count: each count is at least the next. *)
Definition nonincreasing {K} (s : list (K * nat)) : Prop :=
  Sorted (fun a b => snd b <= snd a) s.

(** An aggregate that counts every value of the column, missing ones
    included: each value that occurs has an entry with its number of rows. *)
Definition counts_every_value (col : list cell) (agg : list (cell * nat)) : Prop :=
  forall v, v ∈ col -> (v, occurrences v col) ∈ agg.







(** [p] is a suffix of [s]. *)
Definition suffix_of (p s : string) : Prop := exists pre, s = pre +:+ p.

Definition is_not_found {A} (r : result A) : bool :=
  match r with
  | Raise (FileNotFoundError _) => true
  | _ => false
  end.

(** No entries: the guard failed or the aggregate is empty. *)
Definition nothing {V} (agg : option (list V)) : bool :=
  match agg with
  | Some (_ :: _) => false
  | _ => true
  end.

(** The charts: key in the plots mapping, file name, and whether the
    aggregate behind it has nothing to show on the prepared table. *)
Definition chart_table (df : DataFrame) : list (string * string * bool) :=
  [ ("top_genres", "top_genres.png", nothing (top_genres df));
    ("top_directors", "top_directors.png", nothing (top_directors df));
    ("rating_distribution", "rating_distribution.png", nothing (rating_counts df));
    ("titles_per_year", "titles_per_year.png", nothing (per_year df));
    ("type_count", "type_count.png", nothing (type_counts df));
    ("avg_movie_duration", "avg_movie_duration.png", nothing (avg_duration df)) ].

Definition chart_files : list string :=
  [ "top_genres.png"; "top_directors.png"; "rating_distribution.png";
    "titles_per_year.png"; "type_count.png"; "avg_movie_duration.png" ].



Section Resolution.
Context `{L : Libraries}.

Definition implicit_dataset (fs : FS) : string :=
  if path_exists fs current_candidate then current_candidate else default_netflix.

(** The resolution order as the specification words it: the explicit path
    if given and it exists, else the current dataset if present, else the
    bundled default. *)
Definition spec_resolution (explicit : option string) (fs : FS) : string :=
  match explicit with
  | Some p => if path_exists fs p then p else implicit_dataset fs
  | None => implicit_dataset fs
  end.

(** What [os.path.join] puts in front of a relative name. *)
Definition dir_prefix (d : string) : string :=
  if (String.length d =? 0) || endswith "/" d then d else d +:+ "/".

Definition chart_file (name : string) : string := path_join REPORTS_DIR name.
Definition pdf_path : string := path_join REPORTS_DIR "netflix_report.pdf".
Definition ppt_path : string := path_join REPORTS_DIR "netflix_report.pptx".

End Resolution.
End Spec.

(** ** Further vocabulary, for the properties beyond the specification *)

Module Notions.
Import Text Frame Report Api.

(** [", ".join(pieces)] *)
Fixpoint join_comma_space (pieces : list string) : string :=
  match pieces with
  | [] => EmptyString
  | [p] => p
  | p :: rest => p +:+ ", " +:+ join_comma_space rest
  end.

(** The sum of the counts of an aggregate. *)
Definition total_count {K} (agg : list (K * nat)) : nat :=
  foldr (fun kv acc => snd kv + acc) 0 agg.

(** A cell that holds a number or nothing, never a text. *)
Definition numeric_or_missing (c : cell) : bool :=
  match c with Str _ => false | _ => true end.

(** Every column of the table has [n] rows. *)
Definition rectangular (n : nat) (df : DataFrame) : Prop :=
  Forall (fun nc => length (snd nc) = n) df.

(** The ascending order of years. *)
Definition year_lt (a b : cell * nat) : Prop :=
  match fst a, fst b with
  | Num x, Num y => (x < y)%Z
  | _, _ => False
  end.

(** A text that does not begin with whitespace. *)
Definition clean_head (s : string) : bool :=
  match s with String c _ => negb (is_space c) | EmptyString => true end.

(** The rows [groupby_mean] averages: the key and the number of every
    row that has both. *)
Definition group_rows (keys vals : list cell) : list (cell * Z) :=
  filter (fun kz : cell * Z => isna (fst kz) = false)
    (omap (fun kv : cell * cell => z ← num_of (snd kv); Some (fst kv, z)) (zip keys vals)).

Section Outputs.
Context `{L : Libraries}.

(** The files a run may write: the six chart images and the two documents. *)
Definition output_files : list string :=
  Spec.chart_files ++ ["netflix_report.pdf"; "netflix_report.pptx"].

Definition output_paths : list string := map (path_join REPORTS_DIR) output_files.

(** The image paths of the charts that have something to show, in the
    order of the table. *)
Definition shown_charts (df : DataFrame) : list string :=
  omap (fun e : string * string * bool =>
          if snd e then None else Some (Spec.chart_file (snd (fst e))))
       (Spec.chart_table df).

(** The path a report kind is served from. *)
Definition report_path (t : report_type) : string :=
  match t with Pdf => Spec.pdf_path | Pptx => Spec.ppt_path end.

End Outputs.
End Notions.

(** * Properties *)

(** ** The model on concrete inputs *)

Section Runs.
Import Text Frame Report Api Sample.

Example strip_column_name : strip "  duration 	" = "duration".
Proof. reflexivity. Qed.

Example split_genres :
  split_comma_space "Dramas, International Movies,Thrillers" []
  = ["Dramas"; "International Movies,Thrillers"].
Proof. reflexivity. Qed.

Example search_digits_runs :
  search_digits "90 min" = Some "90"
  ∧ search_digits "Season 2 of 10" = Some "2"
  ∧ search_digits "nan" = None.
Proof. repeat split. Qed.

Example splitext_runs :
  splitext "titles.csv" = ("titles", ".csv")
  ∧ splitext ".csv" = (".csv", "")
  ∧ splitext "archive.d/titles" = ("archive.d/titles", "")
  ∧ splitext "a/..b.tar.CSV" = ("a/..b.tar", ".CSV").
Proof. repeat split. Qed.

Example path_join_runs :
  path_join "/srv/app" "data" = "/srv/app/data"
  ∧ path_join "/" "data" = "/data"
  ∧ path_join "/srv/app" "/etc/passwd" = "/etc/passwd".
Proof. repeat split. Qed.

Example value_counts_ties :
  value_counts [Str "a"; NA; Str "b"; Str "b"; Num 3; Str "c"; Num 3; Str "b"]
  = [(Str "b", 3); (Num 3, 2); (Str "a", 1); (Str "c", 1)].
Proof. reflexivity. Qed.

Example groupby_mean_runs :
  groupby_mean [Str "TV Show"; Str "Movie"; NA; Str "Movie"; Str "Movie"]
               [Num 2; Num 90; Num 5; NA; Num 91]
  = [(Str "Movie", 181 # 2); (Str "TV Show", 2%Q)].
Proof. reflexivity. Qed.

Example prepare_two_rows :
  get_column "duration_num" (prepare (L := libs) two_rows) = Some [Num 90; Num 2].
Proof. reflexivity. Qed.

(** A full run on the ingested dataset: three charts, the stripped
    narrative, both documents. *)
Example full_run :
  let out := run_report (L := libs) working_client None true disk in
  (∃ r, fst out = Ok r
     ∧ csv_path r = "/srv/app/data/current_dataset.csv"
     ∧ ai_summary r = "Drama dominates."
     ∧ pdf_file r = Some "/srv/app/reports/netflix_report.pdf"
     ∧ map_to_list (plots r)
       = [("avg_movie_duration", "/srv/app/reports/avg_movie_duration.png");
          ("rating_distribution", "/srv/app/reports/rating_distribution.png");
          ("type_count", "/srv/app/reports/type_count.png")])
  ∧ snd out !! "/srv/app/reports/netflix_report.pptx" = Some "PPTX"
  ∧ snd out !! "/srv/app/reports/top_genres.png" = None.
Proof. vm_compute. split; [eexists; repeat split|split; reflexivity]. Qed.

Example upload_then_ingest :
  let f := {| filename := "Fresh.CSV"; file := "two_rows" |} in
  let out := upload (L := libs) f disk in
  fst out = Ok {| uploaded_path := "/srv/app/uploads/Fresh.CSV";
                  upload_current_dataset := "/srv/app/data/current_dataset.csv" |}
  ∧ snd out !! "/srv/app/data/current_dataset.csv" = Some "two_rows"
  ∧ fst (ingest (L := libs) "/srv/app/uploads/Fresh.CSV" (snd out))
    = Ok {| rows := 2; ingest_current_dataset := "/srv/app/data/current_dataset.csv" |}.
Proof. vm_compute. repeat split. Qed.

End Runs.

(** ** Sorting and counting *)

Section SortFacts.
Context {A : Type} (leb : A -> A -> bool).

Local Abbreviation le_of := (Spec.le_of leb).

Lemma insert_by_perm x l : Frame.insert_by leb x l ≡ₚ x :: l.
Proof.
  induction l as [|y l IH]; simpl; [done|].
  destruct (leb x y); [done|].
  rewrite IH. apply perm_swap.
Qed.

Lemma sort_by_perm l : Frame.sort_by leb l ≡ₚ l.
Proof.
  induction l as [|x l IH]; simpl; [done|].
  unfold Frame.sort_by in *. simpl. rewrite insert_by_perm. by rewrite IH.
Qed.

Lemma elem_of_sort_by x l : x ∈ Frame.sort_by leb l ↔ x ∈ l.
Proof. by rewrite sort_by_perm. Qed.

Lemma sort_by_nil_inv l : Frame.sort_by leb l = [] → l = [].
Proof.
  intros H. apply Permutation_nil. by rewrite <- H, sort_by_perm.
Qed.

Hypothesis leb_total : ∀ a b, leb a b = false → leb b a = true.

Lemma insert_by_hd x y l :
  HdRel le_of y l → leb x y = false → HdRel le_of y (Frame.insert_by leb x l).
Proof.
  intros Hy Hxy. destruct l as [|z l]; simpl.
  - constructor. by apply leb_total.
  - destruct (leb x z).
    + constructor. by apply leb_total.
    + constructor. by inversion Hy.
Qed.

Lemma insert_by_sorted x l :
  Sorted le_of l → Sorted le_of (Frame.insert_by leb x l).
Proof.
  induction 1 as [|y l Hs IH Hhd]; simpl.
  - repeat constructor.
  - destruct (leb x y) eqn:E.
    + constructor; [by constructor|]. by constructor.
    + constructor; [done|]. by apply insert_by_hd.
Qed.

Lemma sort_by_sorted l : Sorted le_of (Frame.sort_by leb l).
Proof.
  induction l as [|x l IH]; [constructor|].
  apply insert_by_sorted, IH.
Qed.

End SortFacts.

Lemma Sorted_take {A} (R : A -> A -> Prop) n l : Sorted R l → Sorted R (take n l).
Proof.
  intros Hs. revert n. induction Hs as [|x l Hs IH Hhd]; intros [|n]; simpl;
    try constructor.
  - apply IH.
  - destruct Hhd; destruct n; simpl; constructor; done.
Qed.

Lemma Sorted_mono {A} (R R' : A -> A -> Prop) l :
  (∀ a b, R a b → R' a b) → Sorted R l → Sorted R' l.
Proof.
  intros HR. induction 1 as [|x l Hs IH Hhd]; constructor; [done|].
  destruct Hhd; constructor. by apply HR.
Qed.

Section CountFacts.
Import Frame.

Lemma elem_of_unique v l : v ∈ unique l ↔ v ∈ l.
Proof.
  induction l as [|x l IH]; simpl; [done|].
  rewrite !elem_of_cons, list_elem_of_filter, IH.
  destruct (decide (v = x)); intuition congruence.
Qed.

Lemma NoDup_filter_keep {B} (P : B -> Prop) `{!∀ x, Decision (P x)} l :
  NoDup l → NoDup (filter P l).
Proof.
  induction 1 as [|x l Hx Hl IH]; [constructor|].
  rewrite filter_cons. destruct (decide (P x)); [|done].
  constructor; [|done]. rewrite list_elem_of_filter. tauto.
Qed.

Lemma NoDup_unique l : NoDup (unique l).
Proof.
  induction l as [|x l IH]; simpl; constructor.
  - rewrite list_elem_of_filter. tauto.
  - by apply NoDup_filter_keep.
Qed.

Lemma elem_of_dropna v col : v ∈ dropna col ↔ v ≠ NA ∧ v ∈ col.
Proof.
  unfold dropna. rewrite list_elem_of_filter.
  destruct v; simpl; intuition congruence.
Qed.

Lemma occurrences_dropna v col : v ≠ NA → occurrences v (dropna col) = occurrences v col.
Proof.
  intros Hv. unfold occurrences, dropna.
  induction col as [|c col IH]; [done|].
  rewrite !filter_cons.
  destruct (decide (isna c = false)) as [Hc|Hc].
  - rewrite filter_cons. destruct (decide (c = v)); simpl; by rewrite IH.
  - destruct (decide (c = v)) as [->|]; [|done].
    destruct v; simpl in *; congruence.
Qed.

Lemma occurrences_pos v l : v ∈ l ↔ 0 < occurrences v l.
Proof.
  unfold occurrences. induction l as [|c l IH]; simpl.
  - split; [by intros ?%elem_of_nil | simpl; lia].
  - rewrite filter_cons, elem_of_cons.
    destruct (decide (c = v)) as [->|]; simpl; [split; [lia|auto]|].
    rewrite <- IH. intuition congruence.
Qed.

(** The entries of [value_counts] are the non-missing values of the column,
    each with the number of rows that hold it. *)
Lemma elem_of_value_counts v n col :
  (v, n) ∈ value_counts col ↔ v ≠ NA ∧ v ∈ col ∧ n = occurrences v col.
Proof.
  unfold value_counts. rewrite elem_of_sort_by, list_elem_of_fmap. split.
  - intros (w & [= -> ->] & Hw). apply elem_of_unique, elem_of_dropna in Hw as [? ?].
    by rewrite occurrences_dropna.
  - intros (Hv & Hin & ->). exists v. rewrite occurrences_dropna by done.
    split; [done|]. by apply elem_of_unique, elem_of_dropna.
Qed.

Lemma keys_of_tally {B} (g : cell -> B) (l : list cell) :
  map fst (map (λ v, (v, g v)) l) = l.
Proof. induction l as [|x l IH]; simpl; [done|]. by rewrite IH. Qed.

Lemma value_counts_keys_NoDup col : NoDup (map fst (value_counts col)).
Proof.
  unfold value_counts.
  set (tally := map _ (unique _)).
  assert (map fst (sort_by count_geb tally) ≡ₚ map fst tally) as ->
    by apply Permutation_map, sort_by_perm.
  subst tally. rewrite keys_of_tally. apply NoDup_unique.
Qed.

Lemma count_geb_total {K} (a b : K * nat) : count_geb a b = false → count_geb b a = true.
Proof. unfold count_geb. intros H%Nat.leb_gt. apply Nat.leb_le. lia. Qed.

(** [value_counts] is sorted by non-increasing count. *)
Lemma value_counts_sorted col :
  Sorted (λ a b : cell * nat, snd b ≤ snd a) (value_counts col).
Proof.
  unfold value_counts.
  eapply Sorted_mono; [|apply (sort_by_sorted count_geb), @count_geb_total].
  intros a b H. by apply Nat.leb_le.
Qed.

Lemma value_counts_nil col : value_counts col = [] ↔ dropna col = [].
Proof.
  unfold value_counts. split.
  - intros H%sort_by_nil_inv. apply fmap_nil_inv in H.
    destruct (dropna col) as [|c l]; [done|]. simpl in H. discriminate.
  - intros ->. done.
Qed.

End CountFacts.

(** ** Digit search *)

Section TextFacts.
Import Text Spec.






(** Positional reading of a digit string: one more digit on the right
    multiplies by ten. *)
Lemma digits_value_snoc s c :
  digits_value (s +:+ String c EmptyString) = (10 * digits_value s + digit_value c)%Z.
Proof.
  unfold digits_value. generalize 0%Z. induction s as [|d s IH]; intros acc; simpl; [done|].
  apply IH.
Qed.

End TextFacts.

(** ** Columns of a table *)

Section ColumnFacts.
Import Frame.

Lemma get_column_app_None name df col :
  get_column name df = None → get_column name (df ++ [(name, col)]) = Some col.
Proof.
  induction df as [|[n c] df IH]; simpl.
  - by rewrite String.eqb_refl.
  - destruct (String.eqb n name); [done|auto].
Qed.

Lemma get_column_app_ne name name' df col :
  name' ≠ name → get_column name' (df ++ [(name, col)]) = get_column name' df.
Proof.
  intros Hne. induction df as [|[n c] df IH]; simpl.
  - destruct (String.eqb_spec name name'); congruence.
  - destruct (String.eqb n name'); [done|auto].
Qed.

Lemma get_set_column name col df :
  get_column name (set_column name col df) = Some col.
Proof.
  unfold set_column. destruct (get_column name df) as [old|] eqn:E.
  - revert E. induction df as [|[n c] df IH]; simpl; [done|].
    destruct (String.eqb n name) eqn:En; simpl; rewrite En; [done|auto].
  - by apply get_column_app_None.
Qed.

Lemma get_set_column_ne name name' col df :
  name' ≠ name → get_column name' (set_column name col df) = get_column name' df.
Proof.
  intros Hne. unfold set_column. destruct (get_column name df) as [old|].
  - induction df as [|[n c] df IH]; simpl; [done|].
    destruct (String.eqb_spec n name) as [->|Hn]; simpl.
    + destruct (String.eqb_spec name name'); [congruence|done].
    + destruct (String.eqb n name'); [done|auto].
  - by apply get_column_app_ne.
Qed.

End ColumnFacts.

(** ** Feature preparation *)

Section PrepareFacts.
Import Frame Report Spec.
Context `{L : Libraries}.

Lemma prepare_duration_num df :
  get_column "duration_num" (prepare df) =
  Some match get_column "duration" (rename_columns Text.strip df) with
       | Some col => map duration_num_of col
       | None => replicate (nrows (rename_columns Text.strip df)) NA
       end.
Proof.
  unfold prepare. set (raw := rename_columns Text.strip df).
  set (df1 := match get_column "duration" raw with
              | Some col => set_column "duration_num" (map duration_num_of col) raw
              | None => set_column "duration_num" (replicate (nrows raw) NA) raw
              end).
  assert (get_column "duration_num" df1 =
          Some match get_column "duration" raw with
               | Some col => map duration_num_of col
               | None => replicate (nrows raw) NA
               end) as H1.
  { subst df1. destruct (get_column "duration" raw); apply get_set_column. }
  destruct (get_column "release_year" df1); [|done].
  by rewrite get_set_column_ne.
Qed.

Lemma prepare_release_year df :
  get_column "release_year" (prepare df) =
  map to_numeric <$> get_column "release_year" (rename_columns Text.strip df).
Proof.
  unfold prepare. set (raw := rename_columns Text.strip df).
  set (df1 := match get_column "duration" raw with
              | Some col => set_column "duration_num" (map duration_num_of col) raw
              | None => set_column "duration_num" (replicate (nrows raw) NA) raw
              end).
  assert (get_column "release_year" df1 = get_column "release_year" raw) as H1.
  { subst df1. destruct (get_column "duration" raw); by rewrite get_set_column_ne. }
  destruct (get_column "release_year" df1) as [col|] eqn:E.
  - rewrite get_set_column, <- H1. done.
  - by rewrite E, <- H1.
Qed.

Lemma prepare_other name df :
  name ≠ "duration_num" → name ≠ "release_year" →
  get_column name (prepare df) = get_column name (rename_columns Text.strip df).
Proof.
  intros Hd Hy. unfold prepare. set (raw := rename_columns Text.strip df).
  set (df1 := match get_column "duration" raw with
              | Some col => set_column "duration_num" (map duration_num_of col) raw
              | None => set_column "duration_num" (replicate (nrows raw) NA) raw
              end).
  assert (get_column name df1 = get_column name raw) as H1.
  { subst df1. destruct (get_column "duration" raw); by rewrite get_set_column_ne. }
  destruct (get_column "release_year" df1); [|done].
  by rewrite get_set_column_ne.
Qed.

End PrepareFacts.

(** ** The claims on the aggregates *)

Section AggregateClaims.
Import Frame Report Spec Sample.

(** C2. On the two-row table of the scenario the genre aggregate is
    Drama 2, Comedy 1, the type aggregate is Movie 1, TV Show 1, and the
    average duration by type is 90 for Movie and 2 for TV Show, whatever the
    installation. *)
Theorem scenario_aggregates `{L : Libraries} :
  let df := prepare two_rows in
  top_genres df = Some [(Str "Drama", 2); (Str "Comedy", 1)]
  ∧ type_counts df = Some [(Str "Movie", 1); (Str "TV Show", 1)]
  ∧ avg_duration df = Some [(Str "Movie", 90%Q); (Str "TV Show", 2%Q)].
Proof. repeat split; vm_compute; reflexivity. Qed.

(** C3. For every table, the top-genres and the top-directors aggregates
    hold at most 10 entries, and each is ordered by non-increasing count. *)
Theorem top_n_bounded_and_ordered (df : DataFrame) :
  let genres := default [] (top_genres df) in
  let directors := default [] (top_directors df) in
  length genres ≤ 10 ∧ length directors ≤ 10
  ∧ nonincreasing genres ∧ nonincreasing directors.
Proof.
  unfold top_genres, top_directors, nonincreasing, head.
  destruct (get_column "listed_in" df) as [g|];
    destruct (get_column "director" df) as [d|]; simpl;
    repeat split;
    try (rewrite length_take; lia);
    try (apply Sorted_take, value_counts_sorted);
    try lia; constructor.
Qed.

(** C9, as stated, fails: on a rating column with a missing value the
    aggregate has no entry for the missing value, so it does not count every
    row. *)
Lemma rating_counts_skips_missing :
  get_column "rating" gappy = Some [Str "PG-13"; NA]
  ∧ rating_counts gappy = Some [(Str "PG-13", 1)]
  ∧ ¬ counts_every_value [Str "PG-13"; NA] (default [] (rating_counts gappy)).
Proof.
  split; [reflexivity|]. split; [reflexivity|].
  intros H. specialize (H NA). simpl in H.
  assert (NA ∈ [Str "PG-13"; NA]) as Hin by (apply elem_of_cons; right; apply elem_of_cons; by left).
  apply H in Hin. apply elem_of_cons in Hin as [Hin|Hin]; [discriminate|].
  by apply elem_of_nil in Hin.
Qed.

(** C9, amended. The ratings distribution counts the non-missing values of
    the rating column: its entries are exactly the values that occur, each
    once, with the number of rows holding it; a missing rating is not
    counted; the entries are in order of non-increasing count. *)
Theorem rating_counts_non_missing (df : DataFrame) (col : list cell) :
  get_column "rating" df = Some col →
  ∃ agg, rating_counts df = Some agg
    ∧ (∀ v n, (v, n) ∈ agg ↔ v ≠ NA ∧ v ∈ col ∧ n = occurrences v col)
    ∧ NoDup (map fst agg)
    ∧ nonincreasing agg.
Proof.
  intros Hcol. exists (value_counts col). unfold rating_counts. rewrite Hcol.
  split; [done|]. split; [intros v n; apply elem_of_value_counts|].
  split; [apply value_counts_keys_NoDup | apply value_counts_sorted].
Qed.

Lemma rating_counts_non_missing_witness :
  get_column "rating" gappy = Some [Str "PG-13"; NA]
  ∧ ∃ agg, rating_counts gappy = Some agg
    ∧ (∀ v n, (v, n) ∈ agg ↔ v ≠ NA ∧ v ∈ [Str "PG-13"; NA] ∧ n = occurrences v [Str "PG-13"; NA])
    ∧ NoDup (map fst agg)
    ∧ nonincreasing agg.
Proof.
  split; [reflexivity|].
  apply (rating_counts_non_missing gappy [Str "PG-13"; NA]). reflexivity.
Defined.


End AggregateClaims.

(** ** Paths and extensions *)

Section PathFacts.
Import Text Spec.

Lemma append_cons c a b : String c a +:+ b = String c (a +:+ b).
Proof. reflexivity. Qed.

Lemma append_assoc a b c : (a +:+ b) +:+ c = a +:+ b +:+ c.
Proof. induction a as [|x a IH]; [done|]. rewrite !append_cons. by f_equal. Qed.

Lemma path_join_relative d n :
  startswith "/" n = false → path_join d n = dir_prefix d +:+ n.
Proof.
  intros Hn. unfold path_join, dir_prefix. rewrite Hn.
  destruct (_ || _); [done|]. by rewrite append_assoc.
Qed.

Lemma path_join_inj d a b :
  startswith "/" a = false → startswith "/" b = false →
  path_join d a = path_join d b → a = b.
Proof.
  intros Ha Hb. rewrite !path_join_relative by done. apply String.app_inj.
Qed.

Lemma take_drop_str n s : take_str n s +:+ drop_str n s = s.
Proof.
  revert s. induction n as [|n IH]; intros [|c s]; simpl; try done.
  rewrite append_cons. by f_equal.
Qed.

Lemma lower_app a b : lower (a +:+ b) = lower a +:+ lower b.
Proof. induction a as [|c a IH]; [done|]. rewrite append_cons. simpl. rewrite append_cons. by f_equal. Qed.

Lemma list_ascii_app a b :
  list_ascii_of_string (a +:+ b) = list_ascii_of_string a ++ list_ascii_of_string b.
Proof. induction a as [|c a IH]; [done|]. rewrite append_cons. simpl. by f_equal. Qed.

Lemma string_of_list_app l1 l2 :
  string_of_list_ascii (l1 ++ l2) = string_of_list_ascii l1 +:+ string_of_list_ascii l2.
Proof. induction l1 as [|c l IH]; [done|]. simpl. rewrite append_cons. by f_equal. Qed.

Lemma startswith_app p s : startswith p (p +:+ s) = true.
Proof.
  induction p as [|c p IH]; [done|]. rewrite append_cons. simpl.
  by rewrite Ascii.eqb_refl.
Qed.

Lemma endswith_app pre p : endswith p (pre +:+ p) = true.
Proof.
  unfold endswith. rewrite list_ascii_app, rev_app_distr, string_of_list_app.
  apply startswith_app.
Qed.

(** The extension [splitext] returns is a suffix of the path. *)
Lemma splitext_suffix p : ∃ pre, p = pre +:+ snd (splitext p).
Proof.
  unfold splitext. destruct (rfind_char "." p) as [i|]; simpl.
  - destruct (_ && _); simpl.
    + exists (take_str i p). by rewrite take_drop_str.
    + exists p. clear. induction p as [|c p IH]; [done|]. rewrite append_cons. by f_equal.
  - exists p. clear. induction p as [|c p IH]; [done|]. rewrite append_cons. by f_equal.
Qed.

Lemma csv_extension_suffix p :
  lower (snd (splitext p)) = ".csv" → endswith ".csv" (lower p) = true.
Proof.
  intros H. destruct (splitext_suffix p) as [pre Hp].
  rewrite Hp at 1. rewrite lower_app, H. apply endswith_app.
Qed.

End PathFacts.

(** ** The shape of a run *)

Section RunFacts.
Import Frame Report Spec.
Context `{L : Libraries}.

(** The filesystem once the documents are written. *)
Lemma write_documents_eq summary plot_files fs :
  write_documents summary plot_files fs =
  (pdf_path, ppt_path,
   <[ppt_path := ppt_save (<[pdf_path := pdf_output fs (pdf_doc summary plot_files)]> fs)
                   (ppt_doc summary plot_files)]>
     (<[pdf_path := pdf_output fs (pdf_doc summary plot_files)]> fs)).
Proof. reflexivity. Qed.

Lemma report_on_eq ai path generate_files df fs :
  report_on ai path generate_files df fs =
  let st := render_charts (prepare df) fs in
  let summary := summarize ai (prepare df) in
  ({| csv_path := path;
      pdf_file := if generate_files then Some pdf_path else None;
      ppt_file := if generate_files then Some ppt_path else None;
      ai_summary := summary;
      plots := fst st |},
   if generate_files then snd (write_documents summary (fst st) (snd st)) else snd st).
Proof.
  unfold report_on. destruct (render_charts (prepare df) fs) as [pf fs1].
  destruct generate_files; reflexivity.
Qed.

Lemma run_report_missing ai source generate_files fs :
  path_exists fs (resolve_csv_path source fs) = false →
  run_report ai source generate_files fs =
  (Raise (FileNotFoundError ("CSV file not found: " +:+ resolve_csv_path source fs)), fs).
Proof. intros H. unfold run_report. by rewrite H. Qed.

Lemma run_report_unreadable ai source generate_files fs msg :
  path_exists fs (resolve_csv_path source fs) = true →
  read_csv (default "" (fs !! resolve_csv_path source fs)) = inr msg →
  run_report ai source generate_files fs = (Raise (LibraryError msg), fs).
Proof. intros H Hr. unfold run_report. by rewrite H, Hr. Qed.

Lemma run_report_loaded ai source generate_files fs df :
  path_exists fs (resolve_csv_path source fs) = true →
  read_csv (default "" (fs !! resolve_csv_path source fs)) = inl df →
  run_report ai source generate_files fs =
  (Ok (fst (report_on ai (resolve_csv_path source fs) generate_files df fs)),
   snd (report_on ai (resolve_csv_path source fs) generate_files df fs)).
Proof.
  intros H Hr. unfold run_report. rewrite H, Hr. simpl.
  by destruct (report_on _ _ _ _ _).
Qed.

(** The three ways a run can go. *)
Lemma run_report_cases ai source generate_files fs :
  let resolved := resolve_csv_path source fs in
  (path_exists fs resolved = false
   ∧ run_report ai source generate_files fs =
     (Raise (FileNotFoundError ("CSV file not found: " +:+ resolved)), fs))
  ∨ (path_exists fs resolved = true
     ∧ ∃ msg, run_report ai source generate_files fs = (Raise (LibraryError msg), fs))
  ∨ (path_exists fs resolved = true
     ∧ ∃ df, read_csv (default "" (fs !! resolved)) = inl df
       ∧ run_report ai source generate_files fs =
         (Ok (fst (report_on ai resolved generate_files df fs)),
          snd (report_on ai resolved generate_files df fs))).
Proof.
  intros resolved. destruct (path_exists fs resolved) eqn:E.
  - right. destruct (read_csv (default "" (fs !! resolved))) as [df|msg] eqn:Hr.
    + right. split; [done|]. exists df. split; [done|]. by apply run_report_loaded.
    + left. split; [done|]. exists msg. by apply run_report_unreadable.
  - left. split; [done|]. by apply run_report_missing.
Qed.

End RunFacts.

(** ** Charts *)

Section ChartFacts.
Import Frame Report Spec.
Context `{L : Libraries}.

Lemma reports_path_ne a b :
  Text.startswith "/" a = false → Text.startswith "/" b = false → a ≠ b →
  Text.path_join REPORTS_DIR a ≠ Text.path_join REPORTS_DIR b.
Proof. intros Ha Hb Hne Heq. by apply path_join_inj in Heq. Qed.

Lemma chart_nothing {V} (agg : option (list (cell * V))) fig key file st :
  nothing agg = true → chart agg fig key file st = st.
Proof. destruct agg as [[|x s]|]; simpl; done. Qed.

Lemma chart_plots_ne {V} (agg : option (list (cell * V))) fig key file st k :
  k ≠ key → fst (chart agg fig key file st) !! k = fst st !! k.
Proof.
  intros Hk. destruct agg as [[|x s]|]; simpl; try done.
  by rewrite lookup_insert_ne.
Qed.

Lemma chart_fs_ne {V} (agg : option (list (cell * V))) fig key file st p :
  p ≠ chart_file file → snd (chart agg fig key file st) !! p = snd st !! p.
Proof.
  intros Hp. destruct agg as [[|x s]|]; simpl; try done.
  by rewrite lookup_insert_ne.
Qed.

Lemma chart_something {V} (agg : option (list (cell * V))) fig key file st :
  nothing agg = false →
  fst (chart agg fig key file st) !! key = Some (chart_file file)
  ∧ is_Some (snd (chart agg fig key file st) !! chart_file file).
Proof.
  destruct agg as [[|x s]|]; simpl; try done. intros _.
  unfold chart_file. rewrite !lookup_insert_eq. eauto.
Qed.

(** Rendering touches no file but the six chart images. *)
Lemma render_charts_fs_other df fs p :
  (∀ file, file ∈ chart_files → p ≠ chart_file file) →
  snd (render_charts df fs) !! p = fs !! p.
Proof.
  intros Hp. unfold render_charts. cbv zeta.
  rewrite !chart_fs_ne; [done|apply Hp; unfold chart_files; set_solver..].
Qed.

End ChartFacts.

(** ** The claims on dataset resolution and on the handlers *)

Section HandlerClaims.
Import Frame Report Api Spec Sample.

(** C4, as stated, fails: with an explicit path that does not exist and an
    ingested current dataset that does, the order of the specification
    resolves to the current dataset, which exists, yet the pipeline fails
    with the not-found error. *)
Lemma explicit_path_has_no_fallback :
  let source := Some "/srv/app/data/absent.csv" in
  path_exists disk "/srv/app/data/absent.csv" = false
  ∧ spec_resolution (L := libs) source disk = "/srv/app/data/current_dataset.csv"
  ∧ path_exists disk (spec_resolution (L := libs) source disk) = true
  ∧ run_report (L := libs) no_client source false disk
    = (Raise (FileNotFoundError "CSV file not found: /srv/app/data/absent.csv"), disk).
Proof. repeat split; vm_compute; reflexivity. Qed.

(** C4, amended. The resolved path is the explicit path whenever one is
    given (whether or not it exists), else the current dataset if present,
    else the bundled default; the pipeline fails with the not-found error
    exactly when the resolved path does not exist, leaving the filesystem as
    it was; a report that is returned carries the resolved path.  The
    resolution agrees with the order of the specification when no explicit
    path is given or the explicit path exists. *)
Theorem resolution_order `{L : Libraries} (ai : narrator) (source : option string)
    (generate_files : bool) (fs : FS) :
  let resolved := resolve_csv_path source fs in
  let outcome := run_report ai source generate_files fs in
  resolved = match source with
             | Some p => p
             | None => if path_exists fs current_candidate then current_candidate
                       else default_netflix
             end
  ∧ (is_not_found (fst outcome) = true ↔ path_exists fs resolved = false)
  ∧ (path_exists fs resolved = false → snd outcome = fs)
  ∧ (∀ r, fst outcome = Ok r → csv_path r = resolved)
  ∧ (match source with Some p => path_exists fs p = true | None => True end →
     resolved = spec_resolution source fs).
Proof.
  intros resolved outcome.
  assert (match source with Some p => path_exists fs p = true | None => True end →
          resolved = spec_resolution source fs) as Hspec.
  { subst resolved. destruct source as [p|]; simpl; [by intros ->|done]. }
  split; [by destruct source|].
  subst outcome.
  destruct (run_report_cases ai source generate_files fs)
    as [[E ->]|[[E [msg ->]]|[E (df & Hdf & ->)]]]; fold resolved in E; simpl;
    rewrite ?report_on_eq; simpl; rewrite E;
    repeat split; try done; by intros ? [= <-].
Qed.

(** C7. For every path that does not exist, ingest answers with the
    not-found error (status 404) and writes nothing: the filesystem, and so
    the current dataset, is as it was. *)
Theorem ingest_missing_path `{L : Libraries} (path : string) (fs : FS) :
  path_exists fs path = false →
  (∃ detail, fst (ingest path fs) = Raise (HTTPException 404 detail))
  ∧ snd (ingest path fs) = fs
  ∧ snd (ingest path fs) !! current_dataset_path = fs !! current_dataset_path.
Proof.
  intros H. unfold ingest. rewrite H. simpl. eauto.
Qed.

Lemma ingest_missing_path_witness :
  path_exists disk "/tmp/absent.csv" = false
  ∧ (∃ detail, fst (ingest (L := libs) "/tmp/absent.csv" disk) = Raise (HTTPException 404 detail))
  ∧ snd (ingest (L := libs) "/tmp/absent.csv" disk) = disk
  ∧ snd (ingest (L := libs) "/tmp/absent.csv" disk) !! current_dataset_path (L := libs)
    = disk !! current_dataset_path (L := libs).
Proof.
  split; [reflexivity|].
  apply (ingest_missing_path (L := libs) "/tmp/absent.csv" disk). reflexivity.
Defined.

(** C8. For every uploaded file whose name, in lower case, does not end in
    [.csv], upload answers with the client error (status 400) before any
    write: the filesystem, and so the uploads directory and the current
    dataset, is as it was. *)
Theorem upload_rejects_non_csv `{L : Libraries} (f : UploadFile) (fs : FS) :
  Text.endswith ".csv" (Text.lower (filename f)) = false →
  (∃ detail, fst (upload f fs) = Raise (HTTPException 400 detail))
  ∧ snd (upload f fs) = fs.
Proof.
  intros H. unfold upload.
  destruct (String.eqb_spec (Text.lower (snd (Text.splitext (filename f)))) ".csv") as [E|E].
  - apply csv_extension_suffix in E. congruence.
  - simpl. eauto.
Qed.

Lemma upload_rejects_non_csv_witness :
  let f := {| filename := "quarterly.report.XLSX"; file := "PK" |} in
  Text.endswith ".csv" (Text.lower (filename f)) = false
  ∧ (∃ detail, fst (upload (L := libs) f disk) = Raise (HTTPException 400 detail))
  ∧ snd (upload (L := libs) f disk) = disk.
Proof.
  split; [reflexivity|].
  apply (upload_rejects_non_csv (L := libs)). reflexivity.
Defined.

End HandlerClaims.

(** ** The claims on the pipeline *)

Section PipelineClaims.
Import Frame Report Api Spec Sample.

Ltac path_ne := apply reports_path_ne; [reflexivity | reflexivity | discriminate].

Ltac peel_charts Hskip :=
  repeat first
    [ rewrite (chart_nothing _ _ _ _ _ Hskip)
    | rewrite chart_plots_ne by done
    | rewrite chart_fs_ne by (unfold chart_file; path_ne) ].

(** A chart whose aggregate has nothing to show is skipped: no entry in the
    plots mapping, no write to its image file. *)
Lemma skipped_chart `{L : Libraries} df fs key file :
  (key, file, true) ∈ chart_table df →
  fst (render_charts df fs) !! key = None
  ∧ snd (render_charts df fs) !! chart_file file = fs !! chart_file file.
Proof.
  unfold chart_table. intros Hin.
  repeat (apply elem_of_cons in Hin as [Hin|Hin]);
    [injection Hin as -> -> Hskip; symmetry in Hskip;
     unfold render_charts; cbv zeta; peel_charts Hskip; simpl; by rewrite ?lookup_empty ..|].
  by apply elem_of_nil in Hin.
Qed.








(** C10. With document generation disabled, as on the analyze path, a
    returned report has neither a PDF path nor a slide-deck path, and the
    PDF and the slide deck in the reports directory are what they were
    before the call, whether or not the run succeeds; /analyze leaves the
    filesystem as that run does. *)
Theorem analysis_writes_no_documents `{L : Libraries} (ai : narrator)
    (source : option string) (fs : FS) :
  let out := run_report ai source false fs in
  (∀ r, fst out = Ok r → pdf_file r = None ∧ ppt_file r = None)
  ∧ snd out !! pdf_path = fs !! pdf_path
  ∧ snd out !! ppt_path = fs !! ppt_path
  ∧ snd (analyze ai source fs) = snd out.
Proof.
  intros out. subst out.
  assert (snd (analyze ai source fs) = snd (run_report ai source false fs)) as Han.
  { unfold analyze. by destruct (run_report ai source false fs) as [[r|e] fs']. }
  destruct (run_report_cases ai source false fs)
    as [[E Hrun]|[[E [msg Hrun]]|[E (df & Hdf & Hrun)]]];
    rewrite Hrun in Han |- *;
    [simpl in *; split; [by intros ? [=]|done]..|].
  rewrite report_on_eq in Han |- *. simpl in *.
  split; [by intros r [= <-]|].
  split; [|split; [|done]].
  - apply render_charts_fs_other. intros file Hin. unfold chart_files in Hin.
    repeat (apply elem_of_cons in Hin as [->|Hin]); try (by apply elem_of_nil in Hin);
      unfold pdf_path, chart_file; path_ne.
  - apply render_charts_fs_other. intros file Hin. unfold chart_files in Hin.
    repeat (apply elem_of_cons in Hin as [->|Hin]); try (by apply elem_of_nil in Hin);
      unfold ppt_path, chart_file; path_ne.
Qed.

End PipelineClaims.

(** ** Further properties of the aggregates *)

Section AggregateFacts.
Import Text Frame Report Spec Notions.

Lemma total_count_cons {K} (x : K * nat) l : total_count (x :: l) = snd x + total_count l.
Proof. reflexivity. Qed.

Lemma total_count_perm {K} (a b : list (K * nat)) : a ≡ₚ b → total_count a = total_count b.
Proof.
  induction 1 as [|x a b Hab IH|x y a|a b c Hab IHab Hbc IHbc];
    rewrite ?total_count_cons; try done; lia.
Qed.

Lemma occurrences_cons v x l :
  occurrences v (x :: l) = (if decide (x = v) then 1 else 0) + occurrences v l.
Proof. unfold occurrences. rewrite filter_cons. by destruct (decide (x = v)). Qed.

(** Summing [f] over a duplicate-free list: the term of [x] apart. *)
Lemma tally_split (f : cell → nat) x (u : list cell) :
  NoDup u →
  total_count (map (λ v, (v, f v)) u)
  = (if decide (x ∈ u) then f x else 0)
    + total_count (map (λ v, (v, f v)) (filter (λ c, c ≠ x) u)).
Proof.
  induction 1 as [|y u Hy Hu IH].
  - by destruct (decide (x ∈ [])) as [H%elem_of_nil|].
  - rewrite filter_cons. cbn [map]. rewrite total_count_cons, IH. cbn [snd].
    destruct (decide (y ≠ x)) as [Hne|Heq].
    + cbn [map]. rewrite total_count_cons. cbn [snd].
      destruct (decide (x ∈ u)) as [Hin|Hin].
      * rewrite (decide_True (P := x ∈ y :: u)) by (apply elem_of_cons; by right). lia.
      * rewrite (decide_False (P := x ∈ y :: u)); [lia|].
        intros [->|?]%elem_of_cons; done.
    + assert (y = x) as -> by (destruct (decide (y = x)); [done|by destruct Heq]).
      rewrite (decide_True (P := x ∈ x :: u)) by (apply elem_of_cons; by left).
      rewrite (decide_False (P := x ∈ u)) by done. lia.
Qed.

Lemma tally_ext (f g : cell → nat) (u : list cell) :
  (∀ v, v ∈ u → f v = g v) →
  total_count (map (λ v, (v, f v)) u) = total_count (map (λ v, (v, g v)) u).
Proof.
  induction u as [|y u IH]; intros H; [done|].
  cbn [map]. rewrite !total_count_cons. cbn [snd].
  rewrite H by (apply elem_of_cons; by left).
  rewrite IH; [done|]. intros v Hv. apply H. apply elem_of_cons. by right.
Qed.

Lemma tally_total (l : list cell) :
  total_count (map (λ v, (v, occurrences v l)) (unique l)) = length l.
Proof.
  induction l as [|x l IH]; [done|].
  cbn [unique map length]. rewrite total_count_cons. cbn [snd].
  rewrite occurrences_cons, decide_True by done.
  rewrite (tally_ext _ (λ v, occurrences v l)).
  - rewrite (tally_split (λ v, occurrences v l) x (unique l)) in IH by apply NoDup_unique.
    destruct (decide (x ∈ unique l)) as [Hin|Hin]; [lia|].
    assert (occurrences x l = 0); [|lia].
    destruct (occurrences x l) eqn:E; [done|].
    destruct Hin. apply elem_of_unique, occurrences_pos. lia.
  - intros v [Hne _]%list_elem_of_filter. rewrite occurrences_cons.
    by rewrite decide_False by done.
Qed.

(** The counts of [value_counts] add up to the number of non-missing
    values. *)
Lemma value_counts_total col : total_count (value_counts col) = length (dropna col).
Proof.
  unfold value_counts. rewrite (total_count_perm _ _ (sort_by_perm count_geb _)).
  apply tally_total.
Qed.

Lemma total_count_take {K} n (l : list (K * nat)) : total_count (take n l) ≤ total_count l.
Proof.
  revert n. induction l as [|x l IH]; intros [|n]; simpl; rewrite ?total_count_cons;
    try (unfold total_count; simpl; lia).
  specialize (IH n). lia.
Qed.

(** X1. The distributions account for every row that has a value: the counts
    of the rating, type and per-year aggregates add up to the number of
    non-missing cells of their column, and the counts of the top directors
    to at most that number. *)
Theorem distributions_count_rows (df : DataFrame) :
  total_count (default [] (rating_counts df))
    = length (dropna (default [] (get_column "rating" df)))
  ∧ total_count (default [] (type_counts df))
    = length (dropna (default [] (get_column "type" df)))
  ∧ total_count (default [] (per_year df))
    = length (dropna (default [] (get_column "release_year" df)))
  ∧ total_count (default [] (top_directors df))
    ≤ length (dropna (default [] (get_column "director" df))).
Proof.
  unfold rating_counts, type_counts, per_year, top_directors, sort_index, head.
  repeat split.
  - destruct (get_column "rating" df); simpl; [apply value_counts_total|done].
  - destruct (get_column "type" df); simpl; [apply value_counts_total|done].
  - destruct (get_column "release_year" df); simpl; [|done].
    rewrite (total_count_perm _ _ (sort_by_perm key_leb _)). apply value_counts_total.
  - destruct (get_column "director" df) as [col|]; simpl; [|done].
    etrans; [apply total_count_take|]. rewrite value_counts_total.
    unfold dropna. rewrite list_filter_filter. apply Nat.eq_le_incl. f_equal.
    apply list_filter_iff. tauto.
Qed.

#[local] Instance count_order_trans {K} : Transitive (λ a b : K * nat, snd b ≤ snd a).
Proof. intros a b c ??. lia. Qed.

(** In a list ordered by non-increasing count, the entries beyond the
    first [n] count no more than any of the first [n]. *)
Lemma head_dominates {K} n (s : list (K * nat)) a b :
  nonincreasing s → a ∈ take n s → b ∈ s → b ∉ take n s → snd b ≤ snd a.
Proof.
  intros Hs Ha Hb Hnb.
  apply (stdpp.sorting.Sorted_StronglySorted (λ a b : K * nat, snd b ≤ snd a)) in Hs.
  rewrite <- (take_drop n s) in Hs, Hb.
  apply elem_of_app in Hb as [Hb|Hb]; [done|].
  by apply (StronglySorted_app_1_elem_of _ _ _ _ _ Hs).
Qed.

(** X2. The top ten are the ten most frequent: a director left out of the top
    directors appears in no more rows than any director listed, and a genre
    left out of the top genres occurs no more often than any genre listed. *)
Theorem top_ten_most_frequent (df : DataFrame) :
  (∀ v n w, (v, n) ∈ default [] (top_directors df) →
     w ≠ NA → w ∈ default [] (get_column "director" df) →
     (∀ m, (w, m) ∉ default [] (top_directors df)) →
     occurrences w (default [] (get_column "director" df)) ≤ n)
  ∧ (∀ v n w,
       let pieces := split_stack (map astype_str (dropna (default [] (get_column "listed_in" df)))) in
       (v, n) ∈ default [] (top_genres df) →
       w ∈ pieces →
       (∀ m, (w, m) ∉ default [] (top_genres df)) →
       occurrences w pieces ≤ n).
Proof.
  unfold top_directors, top_genres, head. split.
  - destruct (get_column "director" df) as [col|]; simpl;
      [|by intros ??? ?%elem_of_nil].
    intros v n w Hv Hw Hin Hout.
    assert ((w, occurrences w col) ∈ value_counts (dropna col)) as Hwc.
    { apply elem_of_value_counts. split; [done|]. split.
      - by apply elem_of_dropna.
      - by rewrite occurrences_dropna. }
    apply (head_dominates 10 (value_counts (dropna col)) (v, n) (w, occurrences w col));
      auto; apply value_counts_sorted.
  - destruct (get_column "listed_in" df) as [col|]; simpl;
      [|by intros ??? ?%elem_of_nil].
    intros v n w Hv Hin Hout.
    set (pieces := split_stack (map astype_str (dropna col))) in *.
    assert (w ≠ NA) as Hw.
    { intros ->. unfold pieces, split_stack in Hin.
      apply list_elem_of_In, in_concat in Hin as (l & Hl & Hin).
      apply in_map_iff in Hl as (s & <- & _). apply in_map_iff in Hin as (? & ? & _). done. }
    assert ((w, occurrences w pieces) ∈ value_counts pieces) as Hwc.
    { apply elem_of_value_counts. done. }
    apply (head_dominates 10 (value_counts pieces) (v, n) (w, occurrences w pieces));
      auto; apply value_counts_sorted.
Qed.

End AggregateFacts.

(** ** Further properties of the text operations *)

Section SplitFacts.
Import Text Frame Report Spec Notions.

(** One step of the split: a comma followed by a space closes the piece. *)
Lemma split_step c rest cur :
  split_comma_space (String c rest) cur =
  match rest with
  | String d rest' =>
      if Ascii.eqb c "," && Ascii.eqb d " "
      then string_of_list_ascii (rev cur) :: split_comma_space rest' []
      else split_comma_space rest (c :: cur)
  | EmptyString => split_comma_space rest (c :: cur)
  end.
Proof.
  destruct (Ascii.eqb_spec c ",") as [->|Hc].
  - destruct rest as [|d rest']; [reflexivity|].
    destruct (Ascii.eqb_spec d " ") as [->|Hd]; [reflexivity|].
    destruct d as [[] [] [] [] [] [] [] []]; try reflexivity. by destruct Hd.
  - destruct c as [[] [] [] [] [] [] [] []]; try (by destruct rest); by destruct Hc.
Qed.

Lemma split_nonempty s cur : split_comma_space s cur ≠ [].
Proof.
  remember (String.length s) as n eqn:Hn. revert s cur Hn.
  induction n as [n IH] using lt_wf_ind. intros [|c rest] cur Hn; [done|].
  rewrite split_step. destruct rest as [|d rest'].
  - done.
  - destruct (_ && _); [done|]. eapply IH; [|reflexivity]. simpl in *. lia.
Qed.

Lemma join_cons p rest :
  rest ≠ [] → join_comma_space (p :: rest) = p +:+ ", " +:+ join_comma_space rest.
Proof. by destruct rest. Qed.

Lemma string_of_rev_snoc cur c s :
  string_of_list_ascii (rev (c :: cur)) +:+ s = string_of_list_ascii (rev cur) +:+ String c s.
Proof.
  simpl. rewrite string_of_list_app, append_assoc. reflexivity.
Qed.

Lemma append_nil_r s : s +:+ EmptyString = s.
Proof. induction s as [|x t IH]; [done|]. rewrite append_cons. by f_equal. Qed.

Lemma join_split_from s cur :
  join_comma_space (split_comma_space s cur) = string_of_list_ascii (rev cur) +:+ s.
Proof.
  remember (String.length s) as n eqn:Hn. revert s cur Hn.
  induction n as [n IH] using lt_wf_ind. intros [|c rest] cur Hn.
  - simpl. by rewrite append_nil_r.
  - rewrite split_step. destruct rest as [|d rest'].
    + change (string_of_list_ascii (rev (c :: cur))
              = string_of_list_ascii (rev cur) +:+ String c EmptyString).
      by rewrite <- string_of_rev_snoc, append_nil_r.
    + destruct (Ascii.eqb_spec c ",") as [->|Hc];
        [destruct (Ascii.eqb_spec d " ") as [->|Hd]|]; simpl andb; cbv iota.
      * rewrite join_cons by apply split_nonempty.
        rewrite (IH (String.length rest')); [|simpl in *; lia|reflexivity].
        reflexivity.
      * rewrite (IH (String.length (String d rest'))); [|simpl in *; lia|reflexivity].
        apply string_of_rev_snoc.
      * rewrite (IH (String.length (String d rest'))); [|simpl in *; lia|reflexivity].
        apply string_of_rev_snoc.
Qed.

(** X3. Splitting loses nothing: the pieces of a text, joined with the
    separator, give the text back; and a text always has at least one
    piece. *)
Theorem split_join_round_trip (s : string) :
  join_comma_space (split_comma_space s []) = s ∧ split_comma_space s [] ≠ [].
Proof. split; [apply join_split_from | apply split_nonempty]. Qed.

End SplitFacts.

(** ** Durations read from numbers *)

Section NumericDuration.
Import Text Frame Report Spec Notions.







End NumericDuration.

(** ** Further properties of feature preparation *)

Section PrepareInvariants.
Import Text Frame Report Spec Notions.
Context `{L : Libraries}.

Lemma digits_value_from_nonneg acc s : (0 ≤ acc)%Z → (0 ≤ digits_value_from acc s)%Z.
Proof.
  revert acc. induction s as [|c s IH]; intros acc Hacc; simpl; [done|].
  apply IH. unfold digit_value. lia.
Qed.

Lemma duration_num_of_shape c :
  duration_num_of c = NA ∨ ∃ z, duration_num_of c = Num z ∧ (0 ≤ z)%Z.
Proof.
  unfold duration_num_of. destruct (search_digits (astype_str c)); [right|by left].
  eexists. split; [done|]. by apply digits_value_from_nonneg.
Qed.

Lemma to_numeric_shape c : numeric_or_missing (to_numeric c) = true.
Proof. destruct c as [|s|z]; simpl; try done. by destruct (parse_numeric s). Qed.

Lemma release_year_numeric df :
  Forall (λ c, numeric_or_missing c = true)
         (default [] (get_column "release_year" (prepare df))).
Proof.
  rewrite prepare_release_year.
  destruct (get_column "release_year" _) as [col|]; simpl; [|constructor].
  apply Forall_forall. intros c (c0 & -> & _)%list_elem_of_fmap.
  apply to_numeric_shape.
Qed.

(** X5. After preparation the derived duration holds only missing values and
    numbers that are not negative, and the year column (if any) holds no
    text: what does not parse has become missing. *)
Theorem prepared_columns_are_numeric (df : DataFrame) :
  Forall (λ c, c = NA ∨ ∃ z, c = Num z ∧ (0 ≤ z)%Z)
         (default [] (get_column "duration_num" (prepare df)))
  ∧ Forall (λ c, numeric_or_missing c = true)
           (default [] (get_column "release_year" (prepare df))).
Proof.
  split.
  - rewrite prepare_duration_num. simpl.
    destruct (get_column "duration" _) as [col|].
    + apply Forall_forall. intros c (c0 & -> & _)%list_elem_of_fmap.
      apply duration_num_of_shape.
    + apply Forall_forall. intros c Hc%elem_of_replicate_inv. by left.
  - apply release_year_numeric.
Qed.

Lemma get_column_elem name df col :
  get_column name df = Some col → (∃ n, (n, col) ∈ df).
Proof.
  induction df as [|[n c] df IH]; simpl; [done|].
  destruct (String.eqb n name).
  - intros [= ->]. exists n. apply elem_of_cons. by left.
  - intros [n' Hin]%IH. exists n'. apply elem_of_cons. by right.
Qed.

Lemma rectangular_set_column n name col df :
  rectangular n df → length col = n → rectangular n (set_column name col df).
Proof.
  unfold rectangular, set_column. intros Hdf Hcol.
  destruct (get_column name df).
  - apply Forall_forall. intros nc (nc0 & -> & Hin)%list_elem_of_fmap.
    destruct (String.eqb (fst nc0) name); simpl; [done|].
    by apply (proj1 (Forall_forall _ _) Hdf).
  - apply Forall_app. split; [done|]. by repeat constructor.
Qed.

Lemma nrows_set_column name col df :
  df ≠ [] → nrows df = length col → nrows (set_column name col df) = nrows df.
Proof.
  unfold set_column. destruct df as [|[n c] df]; [done|]. intros _ Hlen.
  destruct (get_column name ((n, c) :: df)); simpl.
  - destruct (String.eqb n name); simpl in *; congruence.
  - done.
Qed.

(** X6. Preparation keeps the table rectangular with the same number of rows:
    if every column has as many rows as the table, so has every column of
    the prepared table, the derived one included. *)
Theorem prepare_keeps_shape (df : DataFrame) :
  rectangular (nrows df) df →
  rectangular (nrows df) (prepare df) ∧ nrows (prepare df) = nrows df
  ∧ length (default [] (get_column "duration_num" (prepare df))) = nrows df.
Proof.
  intros Hrect.
  set (raw := rename_columns Text.strip df).
  assert (nrows raw = nrows df) as Hn by (by destruct df as [|[??] ?]).
  assert (rectangular (nrows df) raw) as Hraw.
  { unfold raw, rename_columns, rectangular in *.
    apply Forall_forall. intros nc (nc0 & -> & Hin)%list_elem_of_fmap. simpl.
    by apply (proj1 (Forall_forall _ _) Hrect). }
  assert (∀ name col, get_column name raw = Some col → length col = nrows df) as Hlen.
  { intros name col [n Hin]%get_column_elem.
    by apply (proj1 (Forall_forall _ _) Hraw (n, col)). }
  set (dn := match get_column "duration" raw with
             | Some col => map duration_num_of col
             | None => replicate (nrows raw) NA
             end).
  assert (length dn = nrows df) as Hdn.
  { unfold dn. destruct (get_column "duration" raw) as [col|] eqn:E.
    - rewrite length_map. by apply (Hlen "duration").
    - by rewrite length_replicate. }
  set (df1 := set_column "duration_num" dn raw).
  assert (prepare df = match get_column "release_year" df1 with
                       | Some col => set_column "release_year" (map to_numeric col) df1
                       | None => df1
                       end) as Hprep.
  { unfold prepare. fold raw. unfold df1, dn. by destruct (get_column "duration" raw). }
  assert (rectangular (nrows df) df1) as Hdf1 by (by apply rectangular_set_column).
  assert (nrows df1 = nrows df) as Hn1.
  { unfold df1. destruct raw as [|[n c] raw'] eqn:Eraw.
    - simpl in *. by rewrite <- Hn.
    - rewrite nrows_set_column; [done|done|]. by rewrite Hn, Hdn. }
  split; [|split].
  - rewrite Hprep. destruct (get_column "release_year" df1) as [col|] eqn:E; [|done].
    apply rectangular_set_column; [done|]. rewrite length_map.
    apply get_column_elem in E as [n Hin].
    by apply (proj1 (Forall_forall _ _) Hdf1 (n, col)).
  - rewrite Hprep. destruct (get_column "release_year" df1) as [col|] eqn:E; [|done].
    rewrite nrows_set_column; [done| |].
    + intros Hnil. by rewrite Hnil in E.
    + rewrite length_map, Hn1. apply get_column_elem in E as [n Hin].
      symmetry. by apply (proj1 (Forall_forall _ _) Hdf1 (n, col)).
  - rewrite prepare_duration_num. simpl. by fold raw dn.
Qed.

(** X7. Preparation touches nothing else: a column other than the derived
    duration and the year is what the loaded table has under that name,
    once the names are stripped. *)
Theorem prepare_keeps_other_columns (name : string) (df : DataFrame) :
  name ≠ "duration_num" → name ≠ "release_year" →
  get_column name (prepare df) = get_column name (rename_columns Text.strip df).
Proof. apply prepare_other. Qed.

End PrepareInvariants.

Section PrepareWitnesses.
Import Text Frame Report Spec Notions.

Lemma prepare_keeps_shape_witness :
  rectangular (nrows Sample.gappy) Sample.gappy
  ∧ rectangular (nrows Sample.gappy) (prepare (L := Sample.libs) Sample.gappy)
  ∧ nrows (prepare (L := Sample.libs) Sample.gappy) = nrows Sample.gappy
  ∧ length (default [] (get_column "duration_num" (prepare (L := Sample.libs) Sample.gappy)))
    = nrows Sample.gappy.
Proof.
  assert (rectangular (nrows Sample.gappy) Sample.gappy) as H
    by (repeat constructor).
  split; [exact H|]. apply (prepare_keeps_shape (L := Sample.libs) Sample.gappy H).
Defined.

Lemma prepare_keeps_other_columns_witness :
  "rating" ≠ "duration_num" ∧ "rating" ≠ "release_year"
  ∧ get_column "rating" (prepare (L := Sample.libs) Sample.gappy)
    = get_column "rating" (rename_columns Text.strip Sample.gappy).
Proof.
  split; [discriminate|]. split; [discriminate|].
  apply (prepare_keeps_other_columns (L := Sample.libs) "rating" Sample.gappy); discriminate.
Defined.

End PrepareWitnesses.

(** ** The year trend *)

Section YearTrend.
Import Text Frame Report Spec Notions.

Lemma cell_leb_total a b : cell_leb a b = false → cell_leb b a = true.
Proof.
  destruct a as [|s|x], b as [|t|y]; simpl; try done.
  - intros H. destruct (String.leb_total s t) as [Hst|Hts]; congruence.
  - intros H%Z.leb_gt. apply Z.leb_le. lia.
Qed.

Lemma key_leb_total {V} (a b : cell * V) : key_leb a b = false → key_leb b a = true.
Proof. apply cell_leb_total. Qed.

(** Sorted by key, with distinct numeric keys: strictly ascending. *)
Lemma sorted_years_strict (l : list (cell * nat)) :
  Sorted (le_of key_leb) l → NoDup (map fst l) →
  Forall (λ kv, ∃ z, fst kv = Num z) l → Sorted year_lt l.
Proof.
  induction 1 as [|a l Hs IH Hhd]; intros Hnd Hnum; [constructor|].
  apply NoDup_cons in Hnd as [Ha Hnd]. apply Forall_cons in Hnum as [[x Hx] Hnum].
  constructor; [by apply IH|].
  destruct Hhd as [|b l Hab]; constructor.
  apply Forall_cons in Hnum as [[y Hy] _].
  destruct a as [ka na], b as [kb nb]. simpl in Hx, Hy. subst ka kb.
  unfold year_lt, le_of, key_leb in *. simpl in *.
  apply Z.leb_le in Hab.
  assert (x ≠ y); [|lia]. intros ->. apply Ha. apply elem_of_cons. by left.
Qed.

(** X8. The titles-per-year aggregate is a trend line: its entries are the
    years that occur in the prepared year column, each with its number of
    rows, in strictly ascending order of the year. *)
Theorem titles_per_year_ascending `{L : Libraries} (df : DataFrame) :
  let col := default [] (get_column "release_year" (prepare df)) in
  let agg := default [] (per_year (prepare df)) in
  Sorted year_lt agg
  ∧ ∀ v n, (v, n) ∈ agg ↔ v ≠ NA ∧ v ∈ col ∧ n = occurrences v col.
Proof.
  intros col agg.
  pose proof (release_year_numeric df) as Hnum. fold col in Hnum.
  assert (agg = sort_index (value_counts col)) as ->.
  { unfold agg, col, per_year. by destruct (get_column "release_year" (prepare df)). }
  assert (∀ v n, (v, n) ∈ sort_index (value_counts col)
                 ↔ v ≠ NA ∧ v ∈ col ∧ n = occurrences v col) as Hin.
  { intros v n. unfold sort_index. rewrite elem_of_sort_by. apply elem_of_value_counts. }
  split; [|done].
  apply sorted_years_strict.
  - apply sort_by_sorted, @key_leb_total.
  - unfold sort_index.
    assert (map fst (sort_by key_leb (value_counts col)) ≡ₚ map fst (value_counts col)) as ->
      by apply Permutation_map, sort_by_perm.
    apply value_counts_keys_NoDup.
  - apply Forall_forall. intros [v n] (Hv & Hc & _)%Hin. simpl.
    apply (proj1 (Forall_forall _ _) Hnum) in Hc. destruct v; try done. eauto.
Qed.

End YearTrend.

(** ** Average duration by type *)

Section AverageDuration.
Import Text Frame Report Spec Notions.

Lemma sum_bounds lo hi (zs : list Z) :
  Forall (λ z, lo ≤ z ≤ hi)%Z zs →
  (lo * Z.of_nat (length zs) ≤ foldr Z.add 0 zs ≤ hi * Z.of_nat (length zs))%Z.
Proof.
  induction 1 as [|z zs Hz Hzs IH]; simpl length; simpl foldr; [lia|].
  rewrite Nat2Z.inj_succ. lia.
Qed.

(** The mean of a non-empty list lies between any bounds of its elements. *)
Lemma mean_bounds lo hi (zs : list Z) :
  zs ≠ [] → Forall (λ z, lo ≤ z ≤ hi)%Z zs →
  (inject_Z lo <= mean zs)%Q ∧ (mean zs <= inject_Z hi)%Q.
Proof.
  intros Hne Hb. unfold mean. rewrite Qred_correct.
  pose proof (sum_bounds lo hi zs Hb) as [Hlo Hhi].
  assert (0 < inject_Z (Z.of_nat (length zs)))%Q as Hpos.
  { change 0%Q with (inject_Z 0). rewrite <- Zlt_Qlt. destruct zs; [done|]. simpl length. lia. }
  split.
  - apply Qle_shift_div_l; [done|]. rewrite <- inject_Z_mult, <- Zle_Qle. done.
  - apply Qle_shift_div_r; [done|]. rewrite <- inject_Z_mult, <- Zle_Qle. done.
Qed.

Lemma groupby_mean_eq keys vals :
  groupby_mean keys vals =
  map (λ k, (k, mean (map snd (filter (λ kz : cell * Z, fst kz = k) (group_rows keys vals)))))
      (sort_by cell_leb (unique (map fst (group_rows keys vals)))).
Proof. reflexivity. Qed.

Lemma elem_of_group_rows keys vals k z :
  (k, z) ∈ group_rows keys vals
  ↔ k ≠ NA ∧ ∃ i, keys !! i = Some k ∧ vals !! i = Some (Num z).
Proof.
  unfold group_rows. rewrite list_elem_of_filter, list_elem_of_omap. simpl. split.
  - intros [Hk ([k' v] & Hin & Hv)]. simpl in Hv.
    destruct v as [|s|z']; simpl in Hv; try done. injection Hv as -> ->.
    split; [by destruct k|].
    apply elem_of_lookup_zip_with in Hin as (i & x & y & [= -> ->] & Hx & Hy). eauto.
  - intros [Hk (i & Hi & Hv)]. split; [by destruct k|].
    exists (k, Num z). split; [|done].
    apply elem_of_lookup_zip_with. eauto 10.
Qed.

Lemma elem_of_groupby_mean keys vals k q :
  (k, q) ∈ groupby_mean keys vals
  ↔ (∃ z, (k, z) ∈ group_rows keys vals)
    ∧ q = mean (map snd (filter (λ kz : cell * Z, fst kz = k) (group_rows keys vals))).
Proof.
  rewrite groupby_mean_eq, list_elem_of_fmap. split.
  - intros (k' & [= -> ->] & Hk). split; [|done].
    apply elem_of_sort_by, elem_of_unique, list_elem_of_fmap in Hk as ([k0 z] & -> & Hin).
    eauto.
  - intros [[z Hz] ->]. exists k. split; [done|].
    apply elem_of_sort_by, elem_of_unique, list_elem_of_fmap. by exists (k, z).
Qed.

Lemma groupby_mean_keys_NoDup keys vals : NoDup (map fst (groupby_mean keys vals)).
Proof.
  rewrite groupby_mean_eq.
  set (groups := sort_by cell_leb _).
  assert (map fst (map (λ k, (k, mean (map snd (filter (λ kz : cell * Z, fst kz = k)
            (group_rows keys vals))))) groups) = groups) as ->.
  { induction groups as [|g gs IH]; simpl; [done|]. by rewrite IH. }
  unfold groups. rewrite sort_by_perm. apply NoDup_unique.
Qed.

(** X9. The average-duration aggregate has one entry per type that has at least
    one row with a parsable duration, and no other; each type appears once;
    and the average of a type lies between any two bounds that hold for the
    durations of all its rows. *)
Theorem average_duration_groups `{L : Libraries} (df : DataFrame) :
  let types := default [] (get_column "type" (prepare df)) in
  let durations := default [] (get_column "duration_num" (prepare df)) in
  let agg := default [] (avg_duration (prepare df)) in
  (∀ k, (∃ q, (k, q) ∈ agg)
        ↔ k ≠ NA ∧ ∃ i z, types !! i = Some k ∧ durations !! i = Some (Num z))
  ∧ NoDup (map fst agg)
  ∧ (∀ k q lo hi, (k, q) ∈ agg →
       (∀ i z, types !! i = Some k → durations !! i = Some (Num z) → (lo ≤ z ≤ hi)%Z) →
       (inject_Z lo <= q)%Q ∧ (q <= inject_Z hi)%Q).
Proof.
  intros types durations agg.
  pose proof (prepare_duration_num df) as Hdn.
  destruct (get_column "type" (prepare df)) as [tcol|] eqn:Ht.
  - assert (agg = groupby_mean types durations) as ->.
    { unfold agg, avg_duration, types, durations. rewrite Hdn, Ht. done. }
    split; [|split].
    + intros k. split.
      * intros [q [[z Hz] _]%elem_of_groupby_mean].
        apply elem_of_group_rows in Hz as [Hk (i & Hi & Hv)]. eauto.
      * intros [Hk (i & z & Hi & Hv)]. eexists. apply elem_of_groupby_mean.
        split; [|done]. exists z. apply elem_of_group_rows. eauto.
    + apply groupby_mean_keys_NoDup.
    + intros k q lo hi [[z Hz] ->]%elem_of_groupby_mean Hb.
      apply mean_bounds.
      * apply (elem_of_not_nil z), list_elem_of_fmap. exists (k, z). split; [done|].
        by apply list_elem_of_filter.
      * apply Forall_forall. intros z' ([k' z''] & -> & [Hk Hin]%list_elem_of_filter)%list_elem_of_fmap.
        simpl in *. subst k'. apply elem_of_group_rows in Hin as [_ (i & Hi & Hv)]. eauto.
  - assert (agg = []) as ->.
    { unfold agg, avg_duration. rewrite Hdn, Ht. done. }
    split; [|split].
    + intros k. split.
      * by intros [q ?%elem_of_nil].
      * intros [_ (i & z & Hi & _)]. unfold types in Hi. simpl in Hi.
        by rewrite lookup_nil in Hi.
    + constructor.
    + by intros k q lo hi ?%elem_of_nil.
Qed.

End AverageDuration.

(** ** What a run writes *)

Section Writes.
Import Text Frame Report Api Spec Notions.
Context `{L : Libraries}.

(** One chart block on a filesystem that extends another by older files:
    same plots, same new files. *)
Lemma chart_union {V} (agg : option (list (cell * V))) fig key file st st' (fs : FS) :
  fst st = fst st' ∧ snd st = snd st' ∪ fs →
  fst (chart agg fig key file st) = fst (chart agg fig key file st')
  ∧ snd (chart agg fig key file st) = snd (chart agg fig key file st') ∪ fs.
Proof.
  intros [Hp Hf]. destruct agg as [[|x s]|]; simpl; try done.
  rewrite Hp, Hf. split; [done|]. by rewrite insert_union_l.
Qed.

(** The charts of a table do not depend on the files already there, and
    the files after rendering are the new images laid over the old files. *)
Lemma render_charts_union df (fs : FS) :
  fst (render_charts df fs) = fst (render_charts df ∅)
  ∧ snd (render_charts df fs) = snd (render_charts df ∅) ∪ fs.
Proof.
  unfold render_charts. cbv zeta.
  do 6 apply chart_union. simpl. split; [done|]. by rewrite (left_id ∅ (∪)).
Qed.

Lemma render_charts_again df (fs : FS) :
  render_charts df (snd (render_charts df fs)) = render_charts df fs.
Proof.
  destruct (render_charts_union df fs) as [Hp Hf].
  destruct (render_charts_union df (snd (render_charts df fs))) as [Hp' Hf'].
  apply injective_projections.
  - by rewrite Hp', Hp.
  - rewrite Hf', Hf. by rewrite (assoc (∪)), (idemp (∪)).
Qed.

(** Every path recorded in the plots names a file that is there. *)
Lemma chart_paths_exist {V} (agg : option (list (cell * V))) fig key file st :
  (∀ k p, fst st !! k = Some p → is_Some (snd st !! p)) →
  ∀ k p, fst (chart agg fig key file st) !! k = Some p →
         is_Some (snd (chart agg fig key file st) !! p).
Proof.
  intros Hst k p. destruct agg as [[|x s]|]; simpl; try exact (Hst k p).
  intros Hk. apply lookup_insert_is_Some'.
  destruct (decide (key = k)) as [->|Hne].
  - rewrite lookup_insert_eq in Hk. injection Hk as <-. by left.
  - rewrite lookup_insert_ne in Hk by done. right. by apply (Hst k).
Qed.

Lemma render_charts_paths_exist df fs k p :
  fst (render_charts df fs) !! k = Some p → is_Some (snd (render_charts df fs) !! p).
Proof.
  revert k p. unfold render_charts. cbv zeta.
  do 6 apply chart_paths_exist. simpl. intros k p. by rewrite lookup_empty.
Qed.

(** A run changes no file but its outputs. *)
Lemma run_frame ai source generate_files fs p :
  (∀ name, name ∈ output_files → p ≠ Text.path_join REPORTS_DIR name) →
  snd (run_report ai source generate_files fs) !! p = fs !! p.
Proof.
  intros Hp.
  destruct (run_report_cases ai source generate_files fs)
    as [[E ->]|[[E [msg ->]]|[E (df & Hdf & ->)]]]; [done..|].
  rewrite report_on_eq. simpl.
  assert (snd (render_charts (prepare df) fs) !! p = fs !! p) as Hc.
  { apply render_charts_fs_other. intros file Hin. apply Hp.
    unfold output_files. apply elem_of_app. by left. }
  destruct generate_files; [|done]. simpl.
  rewrite !lookup_insert_ne; [done|..]; apply not_eq_sym, Hp; unfold output_files;
    apply elem_of_app; right; set_solver.
Qed.

Lemma dir_prefix_snoc x c :
  c ≠ "/"%char → dir_prefix (x +:+ String c EmptyString) = x +:+ String c "/".
Proof.
  intros Hc. unfold dir_prefix.
  assert ((String.length (x +:+ String c EmptyString) =? 0) = false) as ->.
  { destruct x; reflexivity. }
  assert (endswith "/" (x +:+ String c EmptyString) = false) as ->.
  { unfold endswith. rewrite list_ascii_app, rev_app_distr. simpl.
    destruct c as [[] [] [] [] [] [] [] []]; try reflexivity. by destruct Hc. }
  simpl. by rewrite append_assoc.
Qed.

Lemma data_path name :
  startswith "/" name = false →
  path_join DATA_DIR name = dir_prefix PROJECT_DIR +:+ "data/" +:+ name.
Proof.
  intros Hn. rewrite path_join_relative by done.
  unfold DATA_DIR. rewrite path_join_relative by done.
  change "data" with ("dat" +:+ "a"). rewrite <- append_assoc, dir_prefix_snoc by done.
  by rewrite !append_assoc.
Qed.

Lemma reports_path name :
  startswith "/" name = false →
  path_join REPORTS_DIR name = dir_prefix PROJECT_DIR +:+ "reports/" +:+ name.
Proof.
  intros Hn. rewrite path_join_relative by done.
  unfold REPORTS_DIR. rewrite path_join_relative by done.
  change "reports" with ("report" +:+ "s"). rewrite <- append_assoc, dir_prefix_snoc by done.
  by rewrite !append_assoc.
Qed.

Lemma uploads_path name :
  startswith "/" name = false →
  path_join UPLOADS_DIR name = dir_prefix PROJECT_DIR +:+ "uploads/" +:+ name.
Proof.
  intros Hn. rewrite path_join_relative by done.
  unfold UPLOADS_DIR. rewrite path_join_relative by done.
  change "uploads" with ("upload" +:+ "s"). rewrite <- append_assoc, dir_prefix_snoc by done.
  by rewrite !append_assoc.
Qed.

(** A file of the data directory is none of the outputs of a run. *)
Lemma data_not_output name out :
  startswith "/" name = false → out ∈ output_files →
  path_join DATA_DIR name ≠ path_join REPORTS_DIR out.
Proof.
  intros Hn Hout Heq.
  assert (startswith "/" out = false) as Ho.
  { unfold output_files, chart_files in Hout. simpl in Hout.
    repeat (apply elem_of_cons in Hout as [->|Hout]; [done|]). by apply elem_of_nil in Hout. }
  rewrite data_path, reports_path in Heq by done.
  apply String.app_inj in Heq. discriminate.
Qed.

End Writes.

(** ** Properties of a run *)

Section RunProperties.
Import Text Frame Report Api Spec Notions Sample.

(** X10. A run writes nothing but its outputs: a path that is none of the six
    chart images, the PDF and the slide deck holds after the run what it
    held before, whether the run succeeds or fails. *)
Theorem run_writes_only_outputs `{L : Libraries} (ai : narrator) (source : option string)
    (generate_files : bool) (fs : FS) (p : string) :
  bool_decide (p ∈ output_paths) = false →
  snd (run_report ai source generate_files fs) !! p = fs !! p.
Proof.
  intros Hp%bool_decide_eq_false. apply run_frame. intros name Hin ->. apply Hp.
  unfold output_paths. apply list_elem_of_fmap. by exists name.
Qed.

Lemma run_writes_only_outputs_witness :
  bool_decide ("/srv/app/data/netflix_titles.csv" ∈ output_paths (L := libs)) = false
  ∧ snd (run_report (L := libs) working_client None true disk)
      !! "/srv/app/data/netflix_titles.csv"
    = disk !! "/srv/app/data/netflix_titles.csv".
Proof.
  split; [reflexivity|].
  apply (run_writes_only_outputs (L := libs) working_client None true disk). reflexivity.
Defined.

Lemma run_keeps_data_file `{L : Libraries} ai source generate_files (fs : FS) name :
  startswith "/" name = false →
  snd (run_report ai source generate_files fs) !! path_join DATA_DIR name
  = fs !! path_join DATA_DIR name.
Proof. intros Hn. apply run_frame. intros out Hin. by apply data_not_output. Qed.

Lemma run_keeps_resolution `{L : Libraries} ai source generate_files (fs : FS) src :
  resolve_csv_path src (snd (run_report ai source generate_files fs))
  = resolve_csv_path src fs.
Proof.
  destruct src as [p|]; [done|]. unfold resolve_csv_path, path_exists, current_candidate.
  by rewrite run_keeps_data_file.
Qed.

(** X11. A run never alters the datasets of the data directory: the current
    dataset and the bundled default are, after any run, what they were, so
    the next run without an explicit source resolves to the same file. *)
Theorem run_keeps_datasets `{L : Libraries} (ai : narrator) (source : option string)
    (generate_files : bool) (fs : FS) :
  let fs' := snd (run_report ai source generate_files fs) in
  fs' !! current_candidate = fs !! current_candidate
  ∧ fs' !! default_netflix = fs !! default_netflix
  ∧ resolve_csv_path None fs' = resolve_csv_path None fs.
Proof.
  intros fs'. subst fs'. split; [|split].
  - by apply run_keeps_data_file.
  - by apply run_keeps_data_file.
  - apply run_keeps_resolution.
Qed.

(** X12. Analysis is idempotent on the filesystem: when the dataset is not
    itself one of the output files, running the analysis again on the files
    the first run left (with any narrative client) changes nothing and
    reports the same dataset and the same plots. *)
Theorem analysis_is_idempotent `{L : Libraries} (ai ai' : narrator) (source : option string)
    (fs : FS) :
  bool_decide (resolve_csv_path source fs ∈ output_paths) = false →
  let out := run_report ai source false fs in
  let again := run_report ai' source false (snd out) in
  snd again = snd out
  ∧ match fst out, fst again with
    | Ok r, Ok r' => csv_path r' = csv_path r ∧ plots r' = plots r
    | Raise e, Raise e' => e' = e
    | _, _ => False
    end.
Proof.
  intros Hp%bool_decide_eq_false out again.
  assert (∀ name, name ∈ output_files →
            resolve_csv_path source fs ≠ path_join REPORTS_DIR name) as Hne.
  { intros name Hin Heq. apply Hp. unfold output_paths.
    apply list_elem_of_fmap. by exists name. }
  assert (resolve_csv_path source (snd out) = resolve_csv_path source fs) as Hres.
  { apply run_keeps_resolution. }
  assert (snd out !! resolve_csv_path source fs = fs !! resolve_csv_path source fs) as Hsame
    by (by apply run_frame).
  subst again out.
  destruct (path_exists fs (resolve_csv_path source fs)) eqn:E.
  - destruct (read_csv (default "" (fs !! resolve_csv_path source fs))) as [df|msg] eqn:Hr.
    + rewrite (run_report_loaded ai _ _ _ df) in * by done. simpl fst in *. simpl snd in *.
      rewrite report_on_eq in *. simpl in *.
      rewrite (run_report_loaded _ _ _ _ df).
      * rewrite Hres, report_on_eq. simpl. by rewrite render_charts_again.
      * rewrite Hres. unfold path_exists in *. by rewrite Hsame.
      * by rewrite Hres, Hsame.
    + rewrite (run_report_unreadable ai _ _ _ msg) in * by done. simpl in *.
      by rewrite (run_report_unreadable ai' _ _ _ msg).
  - rewrite (run_report_missing ai) in * by done. simpl in *.
    by rewrite run_report_missing.
Qed.

Lemma analysis_is_idempotent_witness :
  bool_decide (resolve_csv_path (L := libs) None disk ∈ output_paths (L := libs)) = false
  ∧ let out := run_report (L := libs) no_client None false disk in
    let again := run_report (L := libs) working_client None false (snd out) in
    snd again = snd out
    ∧ match fst out, fst again with
      | Ok r, Ok r' => csv_path r' = csv_path r ∧ plots r' = plots r
      | Raise e, Raise e' => e' = e
      | _, _ => False
      end.
Proof.
  split; [reflexivity|].
  apply (analysis_is_idempotent (L := libs) no_client working_client None disk). reflexivity.
Defined.

(** X13. Every path a returned report names exists when the run ends: the
    dataset, each chart image of the plots mapping, and the PDF and the
    slide deck when they were requested. *)
Theorem returned_paths_exist `{L : Libraries} (ai : narrator) (source : option string)
    (generate_files : bool) (fs : FS) (r : report) :
  fst (run_report ai source generate_files fs) = Ok r →
  let fs' := snd (run_report ai source generate_files fs) in
  (∀ k p, plots r !! k = Some p → is_Some (fs' !! p))
  ∧ (∀ p, pdf_file r = Some p → is_Some (fs' !! p))
  ∧ (∀ p, ppt_file r = Some p → is_Some (fs' !! p))
  ∧ (generate_files = true → is_Some (pdf_file r) ∧ is_Some (ppt_file r)).
Proof.
  destruct (run_report_cases ai source generate_files fs)
    as [[E ->]|[[E [msg ->]]|[E (df & Hdf & ->)]]]; [done..|].
  rewrite report_on_eq. simpl. intros [= <-]. simpl.
  split; [|destruct generate_files; simpl].
  - intros k p Hk. apply render_charts_paths_exist in Hk.
    destruct generate_files; [|done]. simpl.
    apply lookup_insert_is_Some'. right. apply lookup_insert_is_Some'. by right.
  - split; [|split].
    + intros p [= <-]. apply lookup_insert_is_Some'. right.
      apply lookup_insert_is_Some'. by left.
    + intros p [= <-]. apply lookup_insert_is_Some'. by left.
    + eauto.
  - done.
Qed.

Lemma returned_paths_exist_witness :
  ∃ r, fst (run_report (L := libs) working_client None true disk) = Ok r
    ∧ let fs' := snd (run_report (L := libs) working_client None true disk) in
      (∀ k p, plots r !! k = Some p → is_Some (fs' !! p))
      ∧ (∀ p, pdf_file r = Some p → is_Some (fs' !! p))
      ∧ (∀ p, ppt_file r = Some p → is_Some (fs' !! p))
      ∧ (true = true → is_Some (pdf_file r) ∧ is_Some (ppt_file r)).
Proof.
  eexists. split; [reflexivity|].
  apply (returned_paths_exist (L := libs) working_client None true disk). reflexivity.
Defined.

End RunProperties.

(** ** The charts of a report and its documents *)

Section Documents.
Import Text Frame Report Api Spec Notions Sample.

Lemma shown_chart `{L : Libraries} df fs key file :
  (key, file, false) ∈ chart_table df →
  fst (render_charts df fs) !! key = Some (chart_file file).
Proof.
  unfold chart_table. intros Hin.
  repeat (apply elem_of_cons in Hin as [Hin|Hin]);
    [injection Hin as -> -> Hshow; symmetry in Hshow;
     unfold render_charts; cbv zeta;
     repeat (rewrite chart_plots_ne by done);
     by apply chart_something ..|].
  by apply elem_of_nil in Hin.
Qed.

(** The plots mapping of a table: an entry for a chart exactly when its
    aggregate has something to show, and then the path of its image. *)
Lemma plot_lookup `{L : Libraries} df fs key file (skip : bool) :
  (key, file, skip) ∈ chart_table df →
  fst (render_charts df fs) !! key = if skip then None else Some (chart_file file).
Proof.
  destruct skip; intros Hin; [by apply (skipped_chart df fs key file)|by apply shown_chart].
Qed.

Lemma chart_paths_shown `{L : Libraries} df fs :
  chart_paths (fst (render_charts df fs)) = shown_charts df.
Proof.
  unfold chart_paths, chart_keys, shown_charts. cbn [mbind omap list_omap option_bind].
  rewrite (plot_lookup df fs "top_genres" "top_genres.png" (nothing (top_genres df)))
    by (unfold chart_table; set_solver).
  rewrite (plot_lookup df fs "top_directors" "top_directors.png" (nothing (top_directors df)))
    by (unfold chart_table; set_solver).
  rewrite (plot_lookup df fs "rating_distribution" "rating_distribution.png"
             (nothing (rating_counts df))) by (unfold chart_table; set_solver).
  rewrite (plot_lookup df fs "titles_per_year" "titles_per_year.png" (nothing (per_year df)))
    by (unfold chart_table; set_solver).
  rewrite (plot_lookup df fs "type_count" "type_count.png" (nothing (type_counts df)))
    by (unfold chart_table; set_solver).
  rewrite (plot_lookup df fs "avg_movie_duration" "avg_movie_duration.png"
             (nothing (avg_duration df))) by (unfold chart_table; set_solver).
  unfold chart_table. cbn [omap list_omap fst snd].
  destruct (nothing (top_genres df)), (nothing (top_directors df)),
    (nothing (rating_counts df)), (nothing (per_year df)),
    (nothing (type_counts df)), (nothing (avg_duration df)); reflexivity.
Qed.

(** X14. The documents show exactly the charts that were produced, in the fixed
    order: the PDF is the heading, the narrative paragraph when there is a
    narrative, and one image per chart with something to show; the deck is
    the summary slide followed by one picture slide per such chart. *)
Theorem documents_show_produced_charts `{L : Libraries} (df : DataFrame) (fs : FS)
    (summary : string) :
  let plot_files : gmap string string := fst (render_charts df fs) in
  pdf_doc summary plot_files
    = PdfHeading "Netflix Analysis Report"
      :: (if truthy summary then [PdfParagraph summary] else [])
      ++ map PdfImage (shown_charts df)
  ∧ ppt_doc summary plot_files
    = SummarySlide "Executive Summary" (if truthy summary then Some summary else None)
      :: map PictureSlide (shown_charts df)
  ∧ length (ppt_doc summary plot_files) = S (length (shown_charts df))
  ∧ (∀ key file (skip : bool), (key, file, skip) ∈ chart_table df →
       plot_files !! key = if skip then None else Some (chart_file file)).
Proof.
  intros plot_files. unfold pdf_doc, ppt_doc. subst plot_files.
  rewrite chart_paths_shown. repeat split.
  - simpl. by rewrite length_map.
  - intros key file skip. apply plot_lookup.
Qed.

End Documents.

(** ** Properties of the handlers *)

Section HandlerProperties.
Import Text Frame Report Api Spec Notions Sample.

Ltac report_ne := apply reports_path_ne; [reflexivity | reflexivity | discriminate].

Lemma get_report_lookup `{L : Libraries} t (fs fs' : FS) :
  fs' !! report_path t = fs !! report_path t → get_report t fs' = get_report t fs.
Proof.
  intros H. unfold get_report, path_exists.
  destruct t; simpl in *; unfold pdf_path, ppt_path in H; by rewrite H.
Qed.

Lemma get_report_present `{L : Libraries} t (fs : FS) bytes :
  fs !! report_path t = Some bytes →
  get_report t fs
  = Ok {| served_path := report_path t;
          download_name := match t with Pdf => "netflix_report.pdf"
                                      | Pptx => "netflix_report.pptx" end;
          media_type := match t with
                        | Pdf => "application/pdf"
                        | Pptx => "application/vnd.openxmlformats-officedocument.presentationml.presentation"
                        end;
          body := bytes |}.
Proof.
  intros H. unfold get_report, path_exists.
  destruct t; simpl in *; unfold pdf_path, ppt_path in H; by rewrite H.
Qed.

(** X15. Analysis never makes a report downloadable, nor withdraws one: after
    /analyze the download of either document answers as it did before. *)
Theorem analyze_leaves_downloads `{L : Libraries} (ai : narrator) (source : option string)
    (fs : FS) (t : report_type) :
  get_report t (snd (analyze ai source fs)) = get_report t fs.
Proof.
  apply get_report_lookup.
  assert (snd (analyze ai source fs) = snd (run_report ai source false fs)) as ->.
  { unfold analyze. by destruct (run_report ai source false fs) as [[r|e] fs']. }
  destruct (run_report_cases ai source false fs)
    as [[E ->]|[[E [msg ->]]|[E (df & Hdf & ->)]]]; [done..|].
  rewrite report_on_eq. simpl.
  apply render_charts_fs_other. intros file Hin. unfold chart_files in Hin.
  repeat (apply elem_of_cons in Hin as [->|Hin]); try (by apply elem_of_nil in Hin);
    destruct t; unfold report_path, pdf_path, ppt_path, chart_file; report_ne.
Qed.

(** X16. After a successful /generate-report both downloads succeed, and each
    serves the file the report names, with the bytes the run left there. *)
Theorem download_after_generate `{L : Libraries} (ai : narrator) (source : option string)
    (fs fs' : FS) (r : report) (t : report_type) :
  generate_report ai source fs = (Ok r, fs') →
  ∃ resp, get_report t fs' = Ok resp
    ∧ Some (served_path resp) = match t with Pdf => pdf_file r | Pptx => ppt_file r end
    ∧ fs' !! served_path resp = Some (body resp).
Proof.
  unfold generate_report.
  destruct (run_report_cases ai source true fs)
    as [[E ->]|[[E [msg ->]]|[E (df & Hdf & ->)]]]; [done..|].
  rewrite report_on_eq. simpl. intros [= <- <-].
  match goal with |- context [get_report t ?m] => set (fs' := m) end.
  assert (is_Some (fs' !! report_path t)) as [bytes Hb].
  { subst fs'. destruct t; simpl; unfold pdf_path, ppt_path.
    - rewrite lookup_insert_ne by report_ne. rewrite lookup_insert_eq. eauto.
    - rewrite lookup_insert_eq. eauto. }
  rewrite (get_report_present t fs' bytes Hb). eexists. split; [done|]. simpl.
  split; [by destruct t|done].
Qed.

Lemma download_after_generate_witness :
  ∃ r fs', generate_report (L := libs) working_client None disk = (Ok r, fs')
    ∧ ∃ resp, get_report (L := libs) Pdf fs' = Ok resp
      ∧ Some (served_path resp) = pdf_file r
      ∧ fs' !! served_path resp = Some (body resp).
Proof.
  eexists _, _. split; [reflexivity|].
  apply (download_after_generate (L := libs) working_client None disk _ _ Pdf). reflexivity.
Defined.

(** X17. Whatever goes wrong in the pipeline, /analyze and /generate-report
    answer with status 500; in particular a dataset that does not exist is
    reported as a server error carrying the pipeline's message, not as a
    not-found, and nothing is written. *)
Theorem pipeline_failures_are_500 `{L : Libraries} (ai : narrator) (source : option string)
    (fs : FS) :
  (∀ e, fst (analyze ai source fs) = Raise e → ∃ detail, e = HTTPException 500 detail)
  ∧ (∀ e, fst (generate_report ai source fs) = Raise e →
       ∃ detail, e = HTTPException 500 detail)
  ∧ (path_exists fs (resolve_csv_path source fs) = false →
       let answer := Raise (HTTPException 500
                        ("CSV file not found: " +:+ resolve_csv_path source fs)) in
       analyze ai source fs = (answer, fs)
       ∧ generate_report ai source fs = (Raise (HTTPException 500
                        ("CSV file not found: " +:+ resolve_csv_path source fs)), fs)).
Proof.
  split; [|split].
  - unfold analyze. destruct (run_report ai source false fs) as [[r|e'] fs']; simpl; [done|].
    intros e [= <-]. eauto.
  - unfold generate_report. destruct (run_report ai source true fs) as [[r|e'] fs']; simpl;
      [done|]. intros e [= <-]. eauto.
  - intros E. unfold analyze, generate_report. by rewrite !run_report_missing.
Qed.



End HandlerProperties.

(** ** Handlers composed with the pipeline *)

Section Compositions.
Import Text Frame Report Api Spec Notions Sample.





(** X20. Ingest installs the file before it reads it: for an existing path other
    than the current dataset itself, the current dataset afterwards holds
    the bytes of that path and nothing else has changed, whether the bytes
    parse (the answer carries the row count of the table) or not (the
    reader's error is raised, with the current dataset already replaced). *)
Theorem ingest_installs_file `{L : Libraries} (path : string) (fs : FS) (bytes : string) :
  fs !! path = Some bytes → path ≠ current_dataset_path →
  snd (ingest path fs) = <[current_dataset_path := bytes]> fs
  ∧ fst (ingest path fs)
    = match read_csv bytes with
      | inl df => Ok {| rows := nrows df; ingest_current_dataset := current_dataset_path |}
      | inr msg => Raise (LibraryError msg)
      end.
Proof.
  intros Hb Hne. unfold ingest, path_exists. rewrite Hb.
  rewrite bool_decide_true by eauto. simpl.
  unfold shutil_copy. destruct (String.eqb_spec path current_dataset_path); [done|].
  rewrite Hb. rewrite lookup_insert_eq. simpl.
  by destruct (read_csv bytes).
Qed.

Lemma ingest_installs_file_witness :
  disk !! "/srv/app/data/netflix_titles.csv" = Some "two_rows"
  ∧ "/srv/app/data/netflix_titles.csv" ≠ current_dataset_path (L := libs)
  ∧ snd (ingest (L := libs) "/srv/app/data/netflix_titles.csv" disk)
    = <[current_dataset_path (L := libs) := "two_rows"]> disk
  ∧ fst (ingest (L := libs) "/srv/app/data/netflix_titles.csv" disk)
    = match read_csv (Libraries := libs) "two_rows" with
      | inl df => Ok {| rows := nrows df;
                        ingest_current_dataset := current_dataset_path (L := libs) |}
      | inr msg => Raise (LibraryError msg)
      end.
Proof.
  split; [reflexivity|]. split; [discriminate|].
  apply (ingest_installs_file (L := libs) "/srv/app/data/netflix_titles.csv" disk "two_rows");
    [reflexivity|discriminate].
Defined.



End Compositions.

(** ** Stripped texts *)

Section Stripped.
Import Text Frame Report Api Spec Notions Sample.

Lemma rstrip_cons c rest :
  rstrip (String c rest)
  = match rstrip rest with
    | EmptyString => if is_space c then EmptyString else String c EmptyString
    | String d r => String c (String d r)
    end.
Proof. simpl. by destruct (rstrip rest). Qed.

Lemma rstrip_rstrip s : rstrip (rstrip s) = rstrip s.
Proof.
  induction s as [|c s IH]; [done|].
  rewrite rstrip_cons. destruct (rstrip s) as [|d r] eqn:E.
  - destruct (is_space c) eqn:Ec; [done|]. rewrite rstrip_cons. simpl. by rewrite Ec.
  - rewrite rstrip_cons, IH. done.
Qed.

Lemma lstrip_clean s : clean_head (lstrip s) = true.
Proof.
  induction s as [|c s IH]; [done|]. simpl.
  destruct (is_space c) eqn:E; [done|]. simpl. by rewrite E.
Qed.

Lemma lstrip_of_clean s : clean_head s = true → lstrip s = s.
Proof.
  destruct s as [|c s]; [done|]. simpl. by intros ->%negb_true_iff.
Qed.

Lemma rstrip_clean s : clean_head s = true → clean_head (rstrip s) = true.
Proof.
  destruct s as [|c s]; [done|]. intros Hc. rewrite rstrip_cons.
  simpl in Hc. apply negb_true_iff in Hc.
  destruct (rstrip s); rewrite ?Hc; simpl; by rewrite ?Hc.
Qed.

(** Stripping twice is stripping once. *)
Lemma strip_strip s : strip (strip s) = strip s.
Proof.
  unfold strip. rewrite (lstrip_of_clean (rstrip (lstrip s))).
  - apply rstrip_rstrip.
  - apply rstrip_clean, lstrip_clean.
Qed.

Lemma rename_names f df : map fst (rename_columns f df) = map f (map fst df).
Proof. induction df as [|[n c] df IH]; simpl; [done|]. by rewrite IH. Qed.

Lemma set_column_names name col df x :
  x ∈ map fst (set_column name col df) → x = name ∨ x ∈ map fst df.
Proof.
  unfold set_column. destruct (get_column name df).
  - intros (pair & -> & (nc & -> & Hin)%list_elem_of_fmap)%list_elem_of_fmap. right.
    apply list_elem_of_fmap. exists nc. split; [|done].
    by destruct (String.eqb (fst nc) name).
  - rewrite map_app. intros [Hin|Hin]%elem_of_app; [by right|].
    left. simpl in Hin. apply elem_of_cons in Hin as [->|Hin]; [done|].
    by apply elem_of_nil in Hin.
Qed.

(** X22. No surrounding whitespace survives the pipeline: every column name of
    the prepared table, and the narrative of the report, is its own
    stripped form; when the client answers, the narrative is the stripped
    answer. *)
Theorem names_and_narrative_are_stripped `{L : Libraries} (ai : narrator) (df : DataFrame) :
  (∀ name, name ∈ map fst (prepare df) → strip name = name)
  ∧ strip (summarize ai (prepare df)) = summarize ai (prepare df)
  ∧ (∀ content, AI_ENABLED ai = true →
       chat_create ai (default [] (top_genres (prepare df)))
                      (default [] (top_directors (prepare df)))
                      (default [] (rating_counts (prepare df))) = Some content →
       summarize ai (prepare df) = strip content).
Proof.
  split; [|split].
  - intros name Hin.
    assert (name = "release_year" ∨ name = "duration_num"
            ∨ name ∈ map fst (rename_columns strip df)) as [->|[->|Hraw]]; [|done|done|].
    { unfold prepare in Hin.
      set (raw := rename_columns strip df) in *.
      set (df1 := match get_column "duration" raw with
                  | Some col => set_column "duration_num" (map duration_num_of col) raw
                  | None => set_column "duration_num" (replicate (nrows raw) NA) raw
                  end) in *.
      assert (name = "release_year" ∨ name ∈ map fst df1) as [->|H1]; [|by left|].
      { destruct (get_column "release_year" df1); [|by right].
        by apply set_column_names in Hin. }
      right. subst df1.
      destruct (get_column "duration" raw); apply set_column_names in H1 as [->|?]; auto. }
    rewrite rename_names in Hraw.
    apply list_elem_of_fmap in Hraw as (n & -> & _). apply strip_strip.
  - unfold summarize. destruct (AI_ENABLED ai); [|done].
    destruct (chat_create _ _ _ _); [apply strip_strip|done].
  - intros content Hen Hc. unfold summarize. by rewrite Hen, Hc.
Qed.

End Stripped.

(** ** The counts of the top lists *)

Section TopCounts.
Import Text Frame Report Api Spec Notions Sample.

(** X23. The counts shown are exact: every entry of the top directors is a
    director named in some row, with the number of rows that name them, and
    every entry of the top genres is a piece of some row's genre list, with
    the number of its occurrences; no entry has a zero count. *)
Theorem top_counts_are_exact (df : DataFrame) :
  (∀ v n, (v, n) ∈ default [] (top_directors df) →
     let col := default [] (get_column "director" df) in
     v ≠ NA ∧ v ∈ col ∧ n = occurrences v col ∧ 0 < n)
  ∧ (∀ v n, (v, n) ∈ default [] (top_genres df) →
       let pieces :=
         split_stack (map astype_str (dropna (default [] (get_column "listed_in" df)))) in
       v ∈ pieces ∧ n = occurrences v pieces ∧ 0 < n).
Proof.
  unfold top_directors, top_genres, head. split.
  - destruct (get_column "director" df) as [col|]; simpl; [|by intros ?? ?%elem_of_nil].
    intros v n (i & Hi & _)%elem_of_take. apply list_elem_of_lookup_2 in Hi.
    apply elem_of_value_counts in Hi as (Hv & Hin & ->).
    apply elem_of_dropna in Hin as [_ Hin]. rewrite occurrences_dropna by done.
    repeat split; try done. by apply occurrences_pos.
  - destruct (get_column "listed_in" df) as [col|]; simpl; [|by intros ?? ?%elem_of_nil].
    intros v n (i & Hi & _)%elem_of_take. apply list_elem_of_lookup_2 in Hi.
    apply elem_of_value_counts in Hi as (Hv & Hin & ->).
    repeat split; try done. by apply occurrences_pos.
Qed.

End TopCounts.
